(** * CHOFermentation: the simulation engine of [CHOFermentation.py]

    The class [CHOFermentationSimulator] is embedded as a record of its
    attributes and one Rocq function per method.  Python and NumPy floats
    are modelled by the real numbers: every arithmetic operation is the
    exact one, [np.exp] is the real exponential.  NumPy arrays are lists
    read and written by index.

    Two further embeddings show what the reals cannot: [ieee] runs the
    loop on reals extended by [inf] and [nan], for the runs on which
    [np.exp] underflows and the death rate is infinite; [binary64] runs
    [monod_kinetics] on the floats of the processor, for the substrates
    at which rounding decides the result.  The hypotheses
    [finite_death_rate], [monod_domain] and [haldane_domain] mark the
    ranges inside which the floats behave as the reals do. *)

From Stdlib Require Import Reals Lra Lia ZArith Zfloor Floats.
From stdpp Require Import list.

Open Scope R_scope.

(** ** Python and NumPy primitives *)

(** [max(a, b)] of Python: the first argument unless the second is larger. *)
Definition py_max (a b : R) : R := if Rlt_dec a b then b else a.

(** [a[i]] for an index known to be in range (a read out of range, an
    [IndexError] in Python, never happens in the code below). *)
Definition idx (a : list R) (i : nat) : R := default 0 (a !! i).

Module np.

(** [np.zeros(n)] and [np.full(n, v)]. *)
Definition zeros (n : nat) : list R := replicate n 0.
Definition full (n : nat) (v : R) : list R := replicate n v.

(** [np.prod]: the product of the elements, left to right. *)
Definition prod (l : list R) : R := foldl Rmult 1 l.

(** [np.arange(start, stop, step)] has [ceil((stop - start) / step)]
    elements (none when that is not positive), element [i] being
    [start + i * step]. *)
Definition arange_len (start stop step : R) : nat :=
  Z.to_nat (Zceil ((stop - start) / step)).

Definition arange (start stop step : R) : list R :=
  (fun i : nat => start + INR i * step) <$> seq 0 (arange_len start stop step).

(** [np.rint]: the nearest integer, ties to the even one. *)
Definition rint (x : R) : Z :=
  let f := Zfloor x in
  let d := x - IZR f in
  if Rlt_dec d (1 / 2) then f
  else if Rlt_dec (1 / 2) d then (f + 1)%Z
  else if Z.even f then f else (f + 1)%Z.

(** [np.round(x, decimals)]: scale, round to the nearest integer, scale
    back. *)
Definition round (x : R) (decimals : nat) : R :=
  IZR (rint (x * 10 ^ decimals)) / 10 ^ decimals.

Definition round_array (a : list R) (decimals : nat) : list R :=
  (fun x => round x decimals) <$> a.

End np.

(** ** The simulator object *)

(** The keys of the dictionaries [optimal] and [sigma]. *)
Module Key.
Inductive t := temp | ph | oxygen | glucose.
End Key.

Record CHOFermentationSimulator := {
  duration : R;
  time_step : R;
  time_points : list R;
  max_growth_rate : R;
  substrate_affinity : R;
  yield_coefficient : R;
  maintenance_coefficient : R;
  death_rate : R;
  antibody_productivity : R;
  inhibition_constant : R;
  optimal : Key.t -> R;
  sigma : Key.t -> R
}.

(** The object that [__init__] builds when it returns. *)
Definition configured (duration time_step : R) : CHOFermentationSimulator :=
  {| duration := duration;
     time_step := time_step;
     time_points := np.arange 0 (duration + time_step) time_step;
     max_growth_rate := 35 / 1000;
     substrate_affinity := 2;
     yield_coefficient := 4 / 10;
     maintenance_coefficient := 2 / 100;
     death_rate := 5 / 1000;
     antibody_productivity := 8 / 10;
     inhibition_constant := 50;
     optimal := fun k => match k with
                         | Key.temp => 37
                         | Key.ph => 72 / 10
                         | Key.oxygen => 50
                         | Key.glucose => 20
                         end;
     sigma := fun k => match k with
                       | Key.temp => 2
                       | Key.ph => 4 / 10
                       | Key.oxygen => 20
                       | Key.glucose => 40
                       end |}.

(** [__init__]: [np.arange] raises for a zero step, which is [None] here. *)
Definition __init__ (duration time_step : R) : option CHOFermentationSimulator :=
  if Req_dec_T time_step 0 then None else Some (configured duration time_step).

Definition stress_gaussian (deviation sigma : R) : R :=
  exp (- (1 / 2) * (deviation / sigma) ^ 2).

Definition evaluate_environment (self : CHOFermentationSimulator)
    (temperature ph oxygen_saturation glucose : R) : R * R :=
  let deviations : list (Key.t * R) :=
    [ (Key.temp, temperature - optimal self Key.temp);
      (Key.ph, ph - optimal self Key.ph);
      (Key.oxygen, oxygen_saturation - optimal self Key.oxygen);
      (Key.glucose, glucose - optimal self Key.glucose) ] in
  let activity_factors :=
    (fun kd : Key.t * R => stress_gaussian (snd kd) (sigma self (fst kd)))
      <$> deviations in
  let activity_effect := np.prod activity_factors in
  let stress_factors :=
    (fun kd : Key.t * R => 1 / stress_gaussian (snd kd) (sigma self (fst kd)))
      <$> deviations in
  let combined_stress := np.prod stress_factors in
  (activity_effect, death_rate self * combined_stress).

Definition monod_kinetics (substrate k_s : R) (k_i : option R) : R :=
  if Rle_dec substrate 0 then 0
  else match k_i with
       | None => substrate / (k_s + substrate)
       | Some k_i => substrate / (k_s + substrate + substrate ^ 2 / k_i)
       end.

(** ** The integration loop *)

(** The dictionary [data] of [simulate]: one array per key. *)
Record Data := {
  glucose : list R;
  vcd : list R;
  tcd : list R;
  dead_cells : list R;
  viability : list R;
  antibody_titer : list R
}.

(** [data[k][i] = x], one function per key [k]. *)
Definition set_glucose (i : nat) (x : R) (d : Data) : Data :=
  {| glucose := <[i:=x]> (glucose d); vcd := vcd d; tcd := tcd d;
     dead_cells := dead_cells d; viability := viability d;
     antibody_titer := antibody_titer d |}.
Definition set_vcd (i : nat) (x : R) (d : Data) : Data :=
  {| glucose := glucose d; vcd := <[i:=x]> (vcd d); tcd := tcd d;
     dead_cells := dead_cells d; viability := viability d;
     antibody_titer := antibody_titer d |}.
Definition set_tcd (i : nat) (x : R) (d : Data) : Data :=
  {| glucose := glucose d; vcd := vcd d; tcd := <[i:=x]> (tcd d);
     dead_cells := dead_cells d; viability := viability d;
     antibody_titer := antibody_titer d |}.
Definition set_dead_cells (i : nat) (x : R) (d : Data) : Data :=
  {| glucose := glucose d; vcd := vcd d; tcd := tcd d;
     dead_cells := <[i:=x]> (dead_cells d); viability := viability d;
     antibody_titer := antibody_titer d |}.
Definition set_viability (i : nat) (x : R) (d : Data) : Data :=
  {| glucose := glucose d; vcd := vcd d; tcd := tcd d;
     dead_cells := dead_cells d; viability := <[i:=x]> (viability d);
     antibody_titer := antibody_titer d |}.
Definition set_antibody_titer (i : nat) (x : R) (d : Data) : Data :=
  {| glucose := glucose d; vcd := vcd d; tcd := tcd d;
     dead_cells := dead_cells d; viability := viability d;
     antibody_titer := <[i:=x]> (antibody_titer d) |}.

(** The body of [for i in range(1, n)], statement by statement: every
    read [data[k][i]] sees the writes made before it. *)
Definition loop_body (self : CHOFermentationSimulator)
    (temperature ph_constant oxygen_saturation : R)
    (data : Data) (i : nat) : Data :=
  let dt := time_step self in
  let prev_glucose := idx (glucose data) (i - 1) in
  let prev_vcd := idx (vcd data) (i - 1) in
  let '(activity_effect, death_rate) :=
    evaluate_environment self temperature ph_constant oxygen_saturation
                         prev_glucose in
  let substrate_factor :=
    monod_kinetics prev_glucose (substrate_affinity self)
                   (Some (inhibition_constant self)) in
  let growth_rate :=
    if Rlt_dec 0 prev_vcd
    then max_growth_rate self * substrate_factor * activity_effect
    else 0 in
  let vcd_growth := growth_rate * prev_vcd * dt in
  let vcd_death := death_rate * prev_vcd * dt in
  let vcd_current := py_max 0 (prev_vcd + vcd_growth - vcd_death) in
  let data := set_vcd i vcd_current data in
  let data :=
    set_dead_cells i (idx (dead_cells data) (i - 1) + vcd_death) data in
  let data := set_tcd i (vcd_current + idx (dead_cells data) i) data in
  let data :=
    set_viability i
      (if Rlt_dec 0 (idx (tcd data) i)
       then vcd_current / idx (tcd data) i * 100 else 0) data in
  let glucose_consumption :=
    vcd_growth / yield_coefficient self
    + maintenance_coefficient self * prev_vcd * dt in
  let data := set_glucose i (py_max 0 (prev_glucose - glucose_consumption)) data in
  if Rlt_dec 0 vcd_current then
    let antibody_production :=
      antibody_productivity self * vcd_current * dt * activity_effect in
    set_antibody_titer i
      (idx (antibody_titer data) (i - 1) + antibody_production) data
  else
    set_antibody_titer i (idx (antibody_titer data) (i - 1)) data.

(** The arrays before the loop: zeros, then the values at [t = 0]. *)
Definition initial_data (n : nat) (initial_glucose initial_vcd : R) : Data :=
  let data := {| glucose := np.zeros n; vcd := np.zeros n; tcd := np.zeros n;
                 dead_cells := np.zeros n; viability := np.zeros n;
                 antibody_titer := np.zeros n |} in
  let data := set_glucose 0 initial_glucose data in
  let data := set_tcd 0 initial_vcd (set_vcd 0 initial_vcd data) in
  set_viability 0 100 data.

(** The arrays after the loop, before rounding.  With no time point the
    first assignment [data['glucose'][0] = ...] raises [IndexError]:
    [None]. *)
Definition simulate_data (self : CHOFermentationSimulator)
    (initial_glucose initial_vcd temperature ph_constant oxygen_saturation : R)
    : option Data :=
  let n := length (time_points self) in
  match n with
  | O => None
  | S _ =>
      Some (foldl (loop_body self temperature ph_constant oxygen_saturation)
                  (initial_data n initial_glucose initial_vcd)
                  (seq 1 (n - 1)))
  end.

(** The [pd.DataFrame] that [simulate] returns, column by column. *)
Record DataFrame := {
  Zeit : list R;
  Glukose : list R;
  VCD : list R;
  TCD : list R;
  Viabilitaet : list R;
  Antikoerper_Titer : list R;
  Temperatur : list R;
  pH : list R;
  Sauerstoff : list R
}.

Definition simulate (self : CHOFermentationSimulator)
    (initial_glucose initial_vcd temperature ph_constant oxygen_saturation : R)
    : option DataFrame :=
  let n := length (time_points self) in
  match simulate_data self initial_glucose initial_vcd temperature
                      ph_constant oxygen_saturation with
  | None => None
  | Some data =>
      Some {| Zeit := np.round_array (time_points self) 2;
              Glukose := np.round_array (glucose data) 2;
              VCD := np.round_array (vcd data) 2;
              TCD := np.round_array (tcd data) 2;
              Viabilitaet := np.round_array (viability data) 2;
              Antikoerper_Titer := np.round_array (antibody_titer data) 2;
              Temperatur := np.full n temperature;
              pH := np.full n ph_constant;
              Sauerstoff := np.full n oxygen_saturation |}
  end.

(** ** The recurrence, row by row *)

(** One row of the trajectory. *)
Record State := {
  st_glucose : R;
  st_vcd : R;
  st_tcd : R;
  st_dead_cells : R;
  st_viability : R;
  st_antibody_titer : R
}.

(** Row [i] of the arrays. *)
Definition row (data : Data) (i : nat) : State :=
  {| st_glucose := idx (glucose data) i;
     st_vcd := idx (vcd data) i;
     st_tcd := idx (tcd data) i;
     st_dead_cells := idx (dead_cells data) i;
     st_viability := idx (viability data) i;
     st_antibody_titer := idx (antibody_titer data) i |}.

(** The initial condition: glucose and VCD as given, TCD equal to VCD,
    viability 100, no dead cells, no titer. *)
Definition initial_state (initial_glucose initial_vcd : R) : State :=
  {| st_glucose := initial_glucose;
     st_vcd := initial_vcd;
     st_tcd := initial_vcd;
     st_dead_cells := 0;
     st_viability := 100;
     st_antibody_titer := 0 |}.

(** One Euler step on unrounded values, the ten steps of the integrator
    in order: environment and substrate factor from the previous glucose,
    growth rate, growth and death, floored VCD, accumulated dead cells,
    TCD, viability, glucose consumption, titer. *)
Definition euler_step (self : CHOFermentationSimulator)
    (temperature ph oxygen : R) (prev : State) : State :=
  let dt := time_step self in
  let env := evaluate_environment self temperature ph oxygen (st_glucose prev) in
  let activity_effect := fst env in
  let death_rate := snd env in
  let substrate_factor :=
    monod_kinetics (st_glucose prev) (substrate_affinity self)
                   (Some (inhibition_constant self)) in
  let growth_rate :=
    if Rlt_dec 0 (st_vcd prev)
    then max_growth_rate self * substrate_factor * activity_effect else 0 in
  let vcd_growth := growth_rate * st_vcd prev * dt in
  let vcd_death := death_rate * st_vcd prev * dt in
  let new_vcd := py_max 0 (st_vcd prev + vcd_growth - vcd_death) in
  let new_dead := st_dead_cells prev + vcd_death in
  let new_tcd := new_vcd + new_dead in
  let new_viability :=
    if Rlt_dec 0 new_tcd then new_vcd / new_tcd * 100 else 0 in
  let consumption :=
    vcd_growth / yield_coefficient self
    + maintenance_coefficient self * st_vcd prev * dt in
  let new_glucose := py_max 0 (st_glucose prev - consumption) in
  let new_titer :=
    if Rlt_dec 0 new_vcd
    then st_antibody_titer prev
         + antibody_productivity self * new_vcd * dt * activity_effect
    else st_antibody_titer prev in
  {| st_glucose := new_glucose;
     st_vcd := new_vcd;
     st_tcd := new_tcd;
     st_dead_cells := new_dead;
     st_viability := new_viability;
     st_antibody_titer := new_titer |}.

(** The exact state after [i] steps. *)
Definition euler_state (self : CHOFermentationSimulator)
    (initial_glucose initial_vcd temperature ph oxygen : R) (i : nat) : State :=
  Nat.iter i (euler_step self temperature ph oxygen)
           (initial_state initial_glucose initial_vcd).

(** The trajectory as the specification describes it: row [i] holds the
    exact state after [i] steps and the sample time [i * time_step], each
    rounded to two places. *)
Record Row := {
  r_time : R;
  r_glucose : R;
  r_vcd : R;
  r_tcd : R;
  r_viability : R;
  r_antibody_titer : R
}.

Definition rounded_row (self : CHOFermentationSimulator)
    (initial_glucose initial_vcd temperature ph oxygen : R) (i : nat) : Row :=
  let st := euler_state self initial_glucose initial_vcd temperature ph oxygen i in
  {| r_time := np.round (INR i * time_step self) 2;
     r_glucose := np.round (st_glucose st) 2;
     r_vcd := np.round (st_vcd st) 2;
     r_tcd := np.round (st_tcd st) 2;
     r_viability := np.round (st_viability st) 2;
     r_antibody_titer := np.round (st_antibody_titer st) 2 |}.

(** Row [i] of a data frame, the six rounded columns. *)
Definition frame_row (df : DataFrame) (i : nat) : Row :=
  {| r_time := idx (Zeit df) i;
     r_glucose := idx (Glukose df) i;
     r_vcd := idx (VCD df) i;
     r_tcd := idx (TCD df) i;
     r_viability := idx (Viabilitaet df) i;
     r_antibody_titer := idx (Antikoerper_Titer df) i |}.

(** [simulate] and the rows it is to return, with the rounding of the
    output left open: [round2 x] stands for what [np.round(x, 2)]
    returns.  NumPy scales by 100 in binary64, so that the result is not
    always the nearest number with two places of the value it is given
    (for 2.675, a float just below the tie, it returns 2.68).  With
    [fun x => np.round x 2] for [round2] these are [simulate] and
    [rounded_row]. *)
Definition simulate_with (round2 : R -> R) (self : CHOFermentationSimulator)
    (initial_glucose initial_vcd temperature ph_constant oxygen_saturation : R)
    : option DataFrame :=
  let n := length (time_points self) in
  match simulate_data self initial_glucose initial_vcd temperature
                      ph_constant oxygen_saturation with
  | None => None
  | Some data =>
      Some {| Zeit := round2 <$> time_points self;
              Glukose := round2 <$> glucose data;
              VCD := round2 <$> vcd data;
              TCD := round2 <$> tcd data;
              Viabilitaet := round2 <$> viability data;
              Antikoerper_Titer := round2 <$> antibody_titer data;
              Temperatur := np.full n temperature;
              pH := np.full n ph_constant;
              Sauerstoff := np.full n oxygen_saturation |}
  end.

Definition rounded_row_with (round2 : R -> R) (self : CHOFermentationSimulator)
    (initial_glucose initial_vcd temperature ph oxygen : R) (i : nat) : Row :=
  let st := euler_state self initial_glucose initial_vcd temperature ph oxygen i in
  {| r_time := round2 (INR i * time_step self);
     r_glucose := round2 (st_glucose st);
     r_vcd := round2 (st_vcd st);
     r_tcd := round2 (st_tcd st);
     r_viability := round2 (st_viability st);
     r_antibody_titer := round2 (st_antibody_titer st) |}.

(** ** Valid configurations *)

(** The preconditions of the engine: a positive step, a duration of at
    least one step, the sample times derived from them as the constructor
    does, positive tolerance widths and yield, and rate constants of the
    sign the constructor gives them. *)
Record valid_config (self : CHOFermentationSimulator) : Prop := {
  vc_time_step : 0 < time_step self;
  vc_duration : time_step self <= duration self;
  vc_time_points :
    time_points self
    = np.arange 0 (duration self + time_step self) (time_step self);
  vc_sigma : forall k, 0 < sigma self k;
  vc_yield : 0 < yield_coefficient self;
  vc_growth : 0 <= max_growth_rate self;
  vc_affinity : 0 < substrate_affinity self;
  vc_inhibition : 0 < inhibition_constant self;
  vc_death : 0 <= death_rate self;
  vc_productivity : 0 <= antibody_productivity self
}.

(** What "positive when supplied" means for the optional constant. *)
Definition positive_if_supplied (k_i : option R) : Prop :=
  match k_i with
  | Some ki => 0 < ki
  | None => True
  end.

(** Every array of [data] has [n] elements. *)
Definition all_lengths (n : nat) (data : Data) : Prop :=
  length (glucose data) = n /\ length (vcd data) = n
  /\ length (tcd data) = n /\ length (dead_cells data) = n
  /\ length (viability data) = n /\ length (antibody_titer data) = n.

(** Every column of [df] has [n] rows. *)
Definition frame_rows (n : nat) (df : DataFrame) : Prop :=
  length (Zeit df) = n /\ length (Glukose df) = n /\ length (VCD df) = n
  /\ length (TCD df) = n /\ length (Viabilitaet df) = n
  /\ length (Antikoerper_Titer df) = n /\ length (Temperatur df) = n
  /\ length (pH df) = n /\ length (Sauerstoff df) = n.

(** ** Key performance indicators and the data table of the page *)

(** The reductions of a [pandas] series that the code uses.  A series is
    a list; on an empty series [iloc[-1]] raises [IndexError] and
    [max], [min] and [mean] give no number ([nan]): [None]. *)
Module pd.

Definition iloc_last (s : list R) : option R := last s.

Definition max (s : list R) : option R :=
  match s with
  | [] => None
  | x :: s' => Some (foldl Rmax x s')
  end.

Definition min (s : list R) : option R :=
  match s with
  | [] => None
  | x :: s' => Some (foldl Rmin x s')
  end.

Definition sum (s : list R) : R := foldl Rplus 0 s.

Definition mean (s : list R) : option R :=
  match s with
  | [] => None
  | _ :: _ => Some (sum s / INR (length s))
  end.

(** [s.iloc[skip::step]] for a positive step, element by element. *)
Fixpoint iloc_from (skip step : nat) (s : list R) : list R :=
  match s with
  | [] => []
  | x :: s' =>
      match skip with
      | O => x :: iloc_from (step - 1) step s'
      | S skip' => iloc_from skip' step s'
      end
  end.

(** [s.iloc[::step]] for a positive step (the code's step is 6; a zero
    step raises [ValueError]). *)
Definition iloc_step (step : nat) (s : list R) : list R :=
  iloc_from 0 step s.

End pd.

(** The dictionary that [calculate_kpis] returns. *)
Record Kpis := {
  final_titer : R;
  max_vcd : R;
  avg_viability : R;
  min_viability : R
}.

(** [calculate_kpis]: the entries are computed in the order of the
    dictionary, so that an empty table fails on [iloc[-1]]. *)
Definition calculate_kpis (data : DataFrame) : option Kpis :=
  match pd.iloc_last (Antikoerper_Titer data) with
  | None => None
  | Some final =>
      match pd.max (VCD data), pd.mean (Viabilitaet data),
            pd.min (Viabilitaet data) with
      | Some vmax, Some avg, Some vmin =>
          Some {| final_titer := final; max_vcd := vmax;
                  avg_viability := avg; min_viability := vmin |}
      | _, _, _ => None
      end
  end.

(** [data.iloc[::6]] of [main]: every sixth row of every column. *)
Definition display_data (data : DataFrame) : DataFrame :=
  {| Zeit := pd.iloc_step 6 (Zeit data);
     Glukose := pd.iloc_step 6 (Glukose data);
     VCD := pd.iloc_step 6 (VCD data);
     TCD := pd.iloc_step 6 (TCD data);
     Viabilitaet := pd.iloc_step 6 (Viabilitaet data);
     Antikoerper_Titer := pd.iloc_step 6 (Antikoerper_Titer data);
     Temperatur := pd.iloc_step 6 (Temperatur data);
     pH := pd.iloc_step 6 (pH data);
     Sauerstoff := pd.iloc_step 6 (Sauerstoff data) |}.

(** A table of two rows, as a sample input of [calculate_kpis]. *)
Definition two_rows : DataFrame :=
  {| Zeit := [0; 1];
     Glukose := [25; 2497 / 100];
     VCD := [1 / 2; 51 / 100];
     TCD := [1 / 2; 51 / 100];
     Viabilitaet := [100; 9951 / 100];
     Antikoerper_Titer := [0; 41 / 100];
     Temperatur := [37; 37];
     pH := [72 / 10; 72 / 10];
     Sauerstoff := [50; 50] |}.

(** ** Where the death rate of the code is finite *)

(** The exponent of the combined stress: the inverse responses multiply
    to [exp] of this sum. *)
Definition stress_exponent (self : CHOFermentationSimulator)
    (temperature ph oxygen_saturation glucose : R) : R :=
  1 / 2 * ((temperature - optimal self Key.temp) / sigma self Key.temp) ^ 2
  + 1 / 2 * ((ph - optimal self Key.ph) / sigma self Key.ph) ^ 2
  + 1 / 2 * ((oxygen_saturation - optimal self Key.oxygen)
             / sigma self Key.oxygen) ^ 2
  + 1 / 2 * ((glucose - optimal self Key.glucose) / sigma self Key.glucose) ^ 2.

(** The readings for which the floats of the code give a finite death
    rate.  [np.exp] returns 0.0 below about -745 and the largest float
    is about [exp 709.78]: with an exponent of at most 700 no response
    underflows and the product of the inverse responses, times a base
    death rate such as the constructor's, does not overflow.  Where a
    response underflows the code's death rate is [inf], and a step from
    VCD 0 then stores [nan] in the dead cells. *)
Definition finite_death_rate (self : CHOFermentationSimulator)
    (temperature ph oxygen_saturation glucose : R) : Prop :=
  stress_exponent self temperature ph oxygen_saturation glucose <= 700.

(** The same for every glucose level that a run started with
    [initial_glucose] can reach: glucose is never negative and, with a
    maintenance coefficient that is not negative, never above its initial
    value. *)
Definition finite_death_rates (self : CHOFermentationSimulator)
    (initial_glucose temperature ph oxygen_saturation : R) : Prop :=
  forall glucose, 0 <= glucose <= initial_glucose ->
    finite_death_rate self temperature ph oxygen_saturation glucose.

(** ** The loop with the special values of binary64 *)

(** A second embedding of the engine, for what the exact reals cannot
    show: a value is a real or one of [inf], [-inf] and [nan].  The
    arithmetic follows IEEE 754 on the special values ([inf * 0] and
    [inf - inf] are [nan], a comparison with [nan] is false, a division
    of a non-zero number by zero is infinite, as in NumPy) and is exact on
    the reals; [np.exp] underflows to 0 and overflows to [inf].  Rounding
    and signed zeros are left out. *)
Module ieee.

Inductive t := Fin (r : R) | PInf | NInf | NaN.

(** One of three values, by the sign of a real. *)
Definition by_sign (r : R) (pos neg zero : t) : t :=
  if Rlt_dec 0 r then pos else if Rlt_dec r 0 then neg else zero.

Definition add (x y : t) : t :=
  match x, y with
  | NaN, _ | _, NaN => NaN
  | Fin a, Fin b => Fin (a + b)
  | PInf, NInf | NInf, PInf => NaN
  | PInf, _ | _, PInf => PInf
  | NInf, _ | _, NInf => NInf
  end.

Definition opp (x : t) : t :=
  match x with
  | Fin a => Fin (- a)
  | PInf => NInf
  | NInf => PInf
  | NaN => NaN
  end.

Definition sub (x y : t) : t := add x (opp y).

Definition mul (x y : t) : t :=
  match x, y with
  | NaN, _ | _, NaN => NaN
  | Fin a, Fin b => Fin (a * b)
  | Fin a, PInf | PInf, Fin a => by_sign a PInf NInf NaN
  | Fin a, NInf | NInf, Fin a => by_sign a NInf PInf NaN
  | PInf, PInf | NInf, NInf => PInf
  | PInf, NInf | NInf, PInf => NInf
  end.

Definition div (x y : t) : t :=
  match x, y with
  | NaN, _ | _, NaN => NaN
  | Fin a, Fin b =>
      if Req_dec_T b 0 then by_sign a PInf NInf NaN else Fin (a / b)
  | Fin _, PInf | Fin _, NInf => Fin 0
  | PInf, Fin b => if Rlt_dec b 0 then NInf else PInf
  | NInf, Fin b => if Rlt_dec b 0 then PInf else NInf
  | PInf, PInf | PInf, NInf | NInf, PInf | NInf, NInf => NaN
  end.

(** [x < y], [x <= y] and [x == y]: false as soon as one side is [nan]. *)
Definition ltb (x y : t) : bool :=
  match x, y with
  | NaN, _ | _, NaN => false
  | Fin a, Fin b => if Rlt_dec a b then true else false
  | NInf, Fin _ | NInf, PInf | Fin _, PInf => true
  | _, _ => false
  end.

Definition leb (x y : t) : bool :=
  match x, y with
  | NaN, _ | _, NaN => false
  | Fin a, Fin b => if Rle_dec a b then true else false
  | NInf, _ | _, PInf => true
  | _, _ => false
  end.

Definition eqb (x y : t) : bool :=
  match x, y with
  | Fin a, Fin b => if Req_dec_T a b then true else false
  | PInf, PInf | NInf, NInf => true
  | _, _ => false
  end.

(** [np.exp]: 0.0 below the smallest positive float (about
    [exp (-745.13)]), [inf] above the largest (about [exp 709.78]).  The
    lines are drawn at the next whole numbers, -746 and 710; no statement
    below depends on an exponent between a line and the limit it stands
    for. *)
Definition exp (x : t) : t :=
  match x with
  | NaN => NaN
  | PInf => PInf
  | NInf => Fin 0
  | Fin r =>
      if Rlt_dec r (-746) then Fin 0
      else if Rlt_dec 710 r then PInf
      else Fin (Rtrigo_def.exp r)
  end.

(** [max(0, x)] of Python: [x] when [x > 0], else 0; so 0 for [nan]. *)
Definition max0 (x : t) : t := if ltb (Fin 0) x then x else Fin 0.

Definition idx (a : list t) (i : nat) : t := default (Fin 0) (a !! i).

Definition prod (l : list t) : t := foldl mul (Fin 1) l.

Definition stress_gaussian (deviation : t) (sigma : R) : t :=
  let q := div deviation (Fin sigma) in
  exp (mul (Fin (- (1 / 2))) (mul q q)).

(** The three readings of the run are given numbers, the glucose comes
    from the array. *)
Definition evaluate_environment (self : CHOFermentationSimulator)
    (temperature ph oxygen_saturation : R) (glucose : t) : t * t :=
  let deviations : list (Key.t * t) :=
    [ (Key.temp, Fin (temperature - optimal self Key.temp));
      (Key.ph, Fin (ph - optimal self Key.ph));
      (Key.oxygen, Fin (oxygen_saturation - optimal self Key.oxygen));
      (Key.glucose, sub glucose (Fin (optimal self Key.glucose))) ] in
  let activity_factors :=
    (fun kd : Key.t * t => stress_gaussian (snd kd) (sigma self (fst kd)))
      <$> deviations in
  let activity_effect := prod activity_factors in
  let stress_factors :=
    (fun kd : Key.t * t =>
       div (Fin 1) (stress_gaussian (snd kd) (sigma self (fst kd))))
      <$> deviations in
  let combined_stress := prod stress_factors in
  (activity_effect, mul (Fin (death_rate self)) combined_stress).

Definition monod_kinetics (substrate : t) (k_s : R) (k_i : option R) : t :=
  if leb substrate (Fin 0) then Fin 0
  else match k_i with
       | None => div substrate (add (Fin k_s) substrate)
       | Some k_i =>
           div substrate
               (add (add (Fin k_s) substrate)
                    (div (mul substrate substrate) (Fin k_i)))
       end.

Record Data := {
  glucose : list t;
  vcd : list t;
  tcd : list t;
  dead_cells : list t;
  viability : list t;
  antibody_titer : list t
}.

Definition set_glucose (i : nat) (x : t) (d : Data) : Data :=
  {| glucose := <[i:=x]> (glucose d); vcd := vcd d; tcd := tcd d;
     dead_cells := dead_cells d; viability := viability d;
     antibody_titer := antibody_titer d |}.
Definition set_vcd (i : nat) (x : t) (d : Data) : Data :=
  {| glucose := glucose d; vcd := <[i:=x]> (vcd d); tcd := tcd d;
     dead_cells := dead_cells d; viability := viability d;
     antibody_titer := antibody_titer d |}.
Definition set_tcd (i : nat) (x : t) (d : Data) : Data :=
  {| glucose := glucose d; vcd := vcd d; tcd := <[i:=x]> (tcd d);
     dead_cells := dead_cells d; viability := viability d;
     antibody_titer := antibody_titer d |}.
Definition set_dead_cells (i : nat) (x : t) (d : Data) : Data :=
  {| glucose := glucose d; vcd := vcd d; tcd := tcd d;
     dead_cells := <[i:=x]> (dead_cells d); viability := viability d;
     antibody_titer := antibody_titer d |}.
Definition set_viability (i : nat) (x : t) (d : Data) : Data :=
  {| glucose := glucose d; vcd := vcd d; tcd := tcd d;
     dead_cells := dead_cells d; viability := <[i:=x]> (viability d);
     antibody_titer := antibody_titer d |}.
Definition set_antibody_titer (i : nat) (x : t) (d : Data) : Data :=
  {| glucose := glucose d; vcd := vcd d; tcd := tcd d;
     dead_cells := dead_cells d; viability := viability d;
     antibody_titer := <[i:=x]> (antibody_titer d) |}.

(** The body of the loop, statement by statement as in [loop_body]. *)
Definition loop_body (self : CHOFermentationSimulator)
    (temperature ph_constant oxygen_saturation : R)
    (data : Data) (i : nat) : Data :=
  let dt := Fin (time_step self) in
  let prev_glucose := idx (glucose data) (i - 1) in
  let prev_vcd := idx (vcd data) (i - 1) in
  let '(activity_effect, death_rate) :=
    evaluate_environment self temperature ph_constant oxygen_saturation
                         prev_glucose in
  let substrate_factor :=
    monod_kinetics prev_glucose (substrate_affinity self)
                   (Some (inhibition_constant self)) in
  let growth_rate :=
    if ltb (Fin 0) prev_vcd
    then mul (mul (Fin (max_growth_rate self)) substrate_factor)
             activity_effect
    else Fin 0 in
  let vcd_growth := mul (mul growth_rate prev_vcd) dt in
  let vcd_death := mul (mul death_rate prev_vcd) dt in
  let vcd_current := max0 (sub (add prev_vcd vcd_growth) vcd_death) in
  let data := set_vcd i vcd_current data in
  let data :=
    set_dead_cells i (add (idx (dead_cells data) (i - 1)) vcd_death) data in
  let data := set_tcd i (add vcd_current (idx (dead_cells data) i)) data in
  let data :=
    set_viability i
      (if ltb (Fin 0) (idx (tcd data) i)
       then mul (div vcd_current (idx (tcd data) i)) (Fin 100)
       else Fin 0) data in
  let glucose_consumption :=
    add (div vcd_growth (Fin (yield_coefficient self)))
        (mul (mul (Fin (maintenance_coefficient self)) prev_vcd) dt) in
  let data :=
    set_glucose i (max0 (sub prev_glucose glucose_consumption)) data in
  if ltb (Fin 0) vcd_current then
    let antibody_production :=
      mul (mul (mul (Fin (antibody_productivity self)) vcd_current) dt)
          activity_effect in
    set_antibody_titer i
      (add (idx (antibody_titer data) (i - 1)) antibody_production) data
  else
    set_antibody_titer i (idx (antibody_titer data) (i - 1)) data.

Definition zeros (n : nat) : list t := replicate n (Fin 0).

Definition initial_data (n : nat) (initial_glucose initial_vcd : R) : Data :=
  let data := {| glucose := zeros n; vcd := zeros n; tcd := zeros n;
                 dead_cells := zeros n; viability := zeros n;
                 antibody_titer := zeros n |} in
  let data := set_glucose 0 (Fin initial_glucose) data in
  let data := set_tcd 0 (Fin initial_vcd) (set_vcd 0 (Fin initial_vcd) data) in
  set_viability 0 (Fin 100) data.

Definition simulate_data (self : CHOFermentationSimulator)
    (initial_glucose initial_vcd temperature ph_constant oxygen_saturation : R)
    : option Data :=
  let n := length (time_points self) in
  match n with
  | O => None
  | S _ =>
      Some (foldl (loop_body self temperature ph_constant oxygen_saturation)
                  (initial_data n initial_glucose initial_vcd)
                  (seq 1 (n - 1)))
  end.

End ieee.

(** Arrays of reals as arrays of that embedding. *)
Definition ieee_data (data : Data) : ieee.Data :=
  {| ieee.glucose := ieee.Fin <$> glucose data;
     ieee.vcd := ieee.Fin <$> vcd data;
     ieee.tcd := ieee.Fin <$> tcd data;
     ieee.dead_cells := ieee.Fin <$> dead_cells data;
     ieee.viability := ieee.Fin <$> viability data;
     ieee.antibody_titer := ieee.Fin <$> antibody_titer data |}.

(** ** [monod_kinetics] on the floats of Python *)

(** The same function on binary64 numbers, with the operations of the
    processor: [substrate ** 2] of Python raises [OverflowError] when the
    square of a finite number is not finite, a division by zero raises
    [ZeroDivisionError] (both [None] here), every other operation rounds
    to the nearest float. *)
Module binary64.

Definition pow2 (x : float) : option float :=
  let y := PrimFloat.mul x x in
  if PrimFloat.is_infinity y && negb (PrimFloat.is_infinity x)
  then None else Some y.

Definition truediv (x y : float) : option float :=
  if PrimFloat.eqb y 0%float then None else Some (PrimFloat.div x y).

Definition monod_kinetics (substrate k_s : float) (k_i : option float)
    : option float :=
  if PrimFloat.leb substrate 0%float then Some 0%float
  else match k_i with
       | None => truediv substrate (PrimFloat.add k_s substrate)
       | Some k_i =>
           match pow2 substrate with
           | None => None
           | Some square =>
               match truediv square k_i with
               | None => None
               | Some inhibition =>
                   truediv substrate
                     (PrimFloat.add (PrimFloat.add k_s substrate) inhibition)
               end
           end
       end.

(** The floats that Python reads for [1e-9] and [1e200]. *)
Definition float_1e_9 : float := 0x1.12e0be826d695p-30%float.
Definition float_1e200 : float := 0x1.4e718d7d7625ap+664%float.

End binary64.

(** The substrates for which the floats keep the factor below 1 and the
    call returns: a float addition [k_s + substrate] that still exceeds
    the substrate (the half-saturation constant is not lost in the last
    bit of the substrate), and, with an inhibition constant, a square
    [substrate ** 2] far below the largest float. *)
Definition monod_domain (substrate k_s : R) (k_i : option R) : Prop :=
  substrate <= 2 ^ 50 * k_s
  /\ match k_i with
     | Some _ => substrate <= 10 ^ 150
     | None => True
     end.

(** The arguments for which the floats tell the Haldane factor from the
    Monod factor: no intermediate result leaves the normal range, and the
    inhibition term is not lost in the last bits of [k_s + substrate]. *)
Definition haldane_domain (substrate k_s k_i : R) : Prop :=
  / 2 ^ 300 <= substrate <= 2 ^ 300
  /\ / 2 ^ 300 <= k_s <= 2 ^ 300
  /\ / 2 ^ 300 <= k_i <= 2 ^ 300
  /\ (k_s + substrate) / 2 ^ 50 <= substrate ^ 2 / k_i.

(** ** Substrate kinetics *)

Lemma monod_kinetics_nonpositive substrate k_s k_i :
  substrate <= 0 -> monod_kinetics substrate k_s k_i = 0.
Proof.
  intros Hs. unfold monod_kinetics.
  destruct (Rle_dec substrate 0); [reflexivity | contradiction].
Qed.

Lemma monod_kinetics_monod substrate k_s :
  0 < substrate ->
  monod_kinetics substrate k_s None = substrate / (k_s + substrate).
Proof.
  intros Hs. unfold monod_kinetics.
  destruct (Rle_dec substrate 0); [lra | reflexivity].
Qed.

Lemma monod_kinetics_haldane substrate k_s k_i :
  0 < substrate ->
  monod_kinetics substrate k_s (Some k_i)
  = substrate / (k_s + substrate + substrate ^ 2 / k_i).
Proof.
  intros Hs. unfold monod_kinetics.
  destruct (Rle_dec substrate 0); [lra | reflexivity].
Qed.

(** The inhibition term of the Haldane denominator is positive. *)
Lemma inhibition_term_pos substrate k_i :
  0 < substrate -> 0 < k_i -> 0 < substrate ^ 2 / k_i.
Proof.
  intros Hs Hk. apply Rdiv_lt_0_compat; [nra | assumption].
Qed.

(** A positive numerator over a strictly larger denominator. *)
Lemma ratio_unit_interval a b : 0 < a -> a < b -> 0 < a / b < 1.
Proof.
  intros Ha Hab. split.
  - apply Rdiv_lt_0_compat; lra.
  - apply Rmult_lt_reg_r with b; [lra |].
    unfold Rdiv. rewrite Rmult_assoc, Rinv_l; lra.
Qed.

Lemma monod_kinetics_range substrate k_s k_i :
  0 < k_s -> positive_if_supplied k_i ->
  0 <= monod_kinetics substrate k_s k_i < 1.
Proof.
  intros Hks Hki. unfold monod_kinetics.
  destruct (Rle_dec substrate 0) as [Hs | Hs]; [lra |].
  apply Rnot_le_lt in Hs.
  destruct k_i as [ki |]; simpl in Hki.
  - pose proof (inhibition_term_pos substrate ki Hs Hki) as Hq.
    destruct (ratio_unit_interval substrate
                (k_s + substrate + substrate ^ 2 / ki)); lra.
  - destruct (ratio_unit_interval substrate (k_s + substrate)); lra.
Qed.

(** C6, amended.  For every positive half-saturation constant (and every
    positive inhibition constant when one is given) and every substrate
    of [monod_domain], [monod_kinetics] returns a factor in [0, 1): 0 for
    a substrate that is not positive, otherwise the Monod ratio when no
    inhibition constant is given and the Haldane ratio when one is. *)
Theorem monod_kinetics_contract (substrate k_s : R) (k_i : option R) :
  0 < k_s -> positive_if_supplied k_i -> monod_domain substrate k_s k_i ->
  0 <= monod_kinetics substrate k_s k_i < 1
  /\ (substrate <= 0 -> monod_kinetics substrate k_s k_i = 0)
  /\ (0 < substrate ->
      monod_kinetics substrate k_s k_i
      = match k_i with
        | None => substrate / (k_s + substrate)
        | Some ki => substrate / (k_s + substrate + substrate ^ 2 / ki)
        end).
Proof.
  intros Hks Hki _. split; [| split].
  - apply monod_kinetics_range; assumption.
  - apply monod_kinetics_nonpositive.
  - intros Hs. destruct k_i as [ki |].
    + apply monod_kinetics_haldane, Hs.
    + apply monod_kinetics_monod, Hs.
Qed.

Lemma monod_kinetics_contract_witness :
  0 <= monod_kinetics 20 2 (Some 50) < 1
  /\ (20 <= 0 -> monod_kinetics 20 2 (Some 50) = 0)
  /\ (0 < 20 ->
      monod_kinetics 20 2 (Some 50) = 20 / (2 + 20 + 20 ^ 2 / 50)).
Proof.
  apply (monod_kinetics_contract 20 2 (Some 50)).
  - lra.
  - simpl. lra.
  - unfold monod_domain. split; lra.
Defined.

(** On floats, outside [monod_domain]: at a substrate of [1e17] the sum
    [2 + 1e17] is [1e17] again and the factor is 1; at [1e200] the square
    overflows and the call raises. *)
Lemma monod_kinetics_binary64_limits :
  binary64.monod_kinetics 1e17%float 2%float None = Some 1%float
  /\ binary64.monod_kinetics binary64.float_1e200 2%float (Some 50%float)
     = None.
Proof. split; reflexivity. Qed.

(** Inside it the floats give what the theorem says, for instance at a
    substrate of 25: a Haldane factor below the Monod factor below 1. *)
Lemma monod_kinetics_binary64_sample :
  exists haldane monod : float,
    binary64.monod_kinetics 25%float 2%float (Some 50%float) = Some haldane
    /\ binary64.monod_kinetics 25%float 2%float None = Some monod
    /\ PrimFloat.ltb haldane monod = true
    /\ PrimFloat.ltb monod 1%float = true.
Proof. do 2 eexists. repeat split; reflexivity. Qed.

(** C6, as stated, fails on floats: with [k_s = 2] and no inhibition
    constant the factor of the substrate [1e17] is not below 1. *)
Lemma monod_kinetics_reaches_1 :
  ~ (forall r : float,
       binary64.monod_kinetics 1e17%float 2%float None = Some r ->
       PrimFloat.leb 0%float r = true /\ PrimFloat.ltb r 1%float = true).
Proof.
  intros Hclaim.
  destruct (Hclaim 1%float (proj1 monod_kinetics_binary64_limits)) as [_ Hlt].
  vm_compute in Hlt. discriminate.
Qed.

(** C7, amended.  For a positive substrate and positive constants of
    [haldane_domain] the Haldane factor is strictly below the Monod
    factor. *)
Theorem haldane_lt_monod (substrate k_s k_i : R) :
  0 < substrate -> 0 < k_s -> 0 < k_i -> haldane_domain substrate k_s k_i ->
  monod_kinetics substrate k_s (Some k_i) < monod_kinetics substrate k_s None.
Proof.
  intros Hs Hks Hki _.
  rewrite monod_kinetics_haldane, monod_kinetics_monod by assumption.
  pose proof (inhibition_term_pos substrate k_i Hs Hki) as Hq.
  unfold Rdiv at 1 3.
  apply Rmult_lt_compat_l; [assumption |].
  apply Rinv_lt_contravar; [nra | lra].
Qed.

Lemma haldane_lt_monod_witness :
  monod_kinetics 20 2 (Some 50) < monod_kinetics 20 2 None.
Proof.
  apply (haldane_lt_monod 20 2 50); try lra.
  unfold haldane_domain. repeat split; lra.
Defined.

(** On floats, outside [haldane_domain]: at a substrate of [1e-9] the
    inhibition term [1e-18 / 50] is lost in the sum with [2 + 1e-9], and
    both calls return the same float. *)
Lemma haldane_binary64_small_substrate :
  exists r : float,
    binary64.monod_kinetics binary64.float_1e_9 2%float (Some 50%float)
    = Some r
    /\ binary64.monod_kinetics binary64.float_1e_9 2%float None = Some r.
Proof. eexists. split; reflexivity. Qed.

(** C7, as stated, fails on floats: for the substrate [1e-9] with
    [k_s = 2] and [k_i = 50] the Haldane factor is not below the Monod
    factor. *)
Lemma haldane_equals_monod :
  ~ (forall haldane monod : float,
       binary64.monod_kinetics binary64.float_1e_9 2%float (Some 50%float)
       = Some haldane ->
       binary64.monod_kinetics binary64.float_1e_9 2%float None
       = Some monod ->
       PrimFloat.ltb haldane monod = true).
Proof.
  intros Hclaim.
  destruct haldane_binary64_small_substrate as (r & Hh & Hm).
  specialize (Hclaim r r Hh Hm).
  vm_compute in Hh. injection Hh as <-.
  vm_compute in Hclaim. discriminate.
Qed.

(** ** The environmental stress model *)

Lemma stress_gaussian_pos deviation sigma : 0 < stress_gaussian deviation sigma.
Proof. apply exp_pos. Qed.

Lemma stress_gaussian_le_1 deviation sigma : stress_gaussian deviation sigma <= 1.
Proof.
  unfold stress_gaussian.
  assert (H : - (1 / 2) * (deviation / sigma) ^ 2 <= 0)
    by (pose proof (pow2_ge_0 (deviation / sigma)); lra).
  destruct H as [H | H].
  - left. apply exp_increasing in H. rewrite exp_0 in H. exact H.
  - right. rewrite H. apply exp_0.
Qed.

Lemma stress_gaussian_optimum sigma : stress_gaussian 0 sigma = 1.
Proof.
  unfold stress_gaussian, Rdiv. rewrite Rmult_0_l, pow_i by lia.
  rewrite Rmult_0_r. apply exp_0.
Qed.

Lemma inverse_stress_ge_1 deviation sigma :
  1 <= 1 / stress_gaussian deviation sigma.
Proof.
  pose proof (stress_gaussian_pos deviation sigma) as Hp.
  pose proof (stress_gaussian_le_1 deviation sigma) as Hl.
  apply Rmult_le_reg_r with (stress_gaussian deviation sigma); [assumption |].
  unfold Rdiv. rewrite Rmult_assoc, Rinv_l; lra.
Qed.

Lemma evaluate_environment_eq self temperature ph oxygen_saturation g :
  evaluate_environment self temperature ph oxygen_saturation g
  = (1 * stress_gaussian (temperature - optimal self Key.temp) (sigma self Key.temp)
       * stress_gaussian (ph - optimal self Key.ph) (sigma self Key.ph)
       * stress_gaussian (oxygen_saturation - optimal self Key.oxygen)
                         (sigma self Key.oxygen)
       * stress_gaussian (g - optimal self Key.glucose) (sigma self Key.glucose),
     death_rate self
     * (1 * (1 / stress_gaussian (temperature - optimal self Key.temp)
                                 (sigma self Key.temp))
          * (1 / stress_gaussian (ph - optimal self Key.ph) (sigma self Key.ph))
          * (1 / stress_gaussian (oxygen_saturation - optimal self Key.oxygen)
                                 (sigma self Key.oxygen))
          * (1 / stress_gaussian (g - optimal self Key.glucose)
                                 (sigma self Key.glucose)))).
Proof. reflexivity. Qed.

Lemma activity_effect_pos self temperature ph oxygen_saturation g :
  0 < fst (evaluate_environment self temperature ph oxygen_saturation g).
Proof.
  rewrite evaluate_environment_eq. cbn [fst].
  repeat apply Rmult_lt_0_compat; try apply stress_gaussian_pos; lra.
Qed.

Lemma combined_stress_ge_1 (a b c d : R) :
  1 <= a -> 1 <= b -> 1 <= c -> 1 <= d -> 1 <= 1 * a * b * c * d.
Proof.
  intros Ha Hb Hc Hd.
  assert (Hab : 1 <= a * b) by nra.
  assert (Habc : 1 <= a * b * c) by nra.
  nra.
Qed.

Lemma death_rate_ge_base self temperature ph oxygen_saturation g :
  0 <= death_rate self ->
  death_rate self
  <= snd (evaluate_environment self temperature ph oxygen_saturation g).
Proof.
  intros Hd. rewrite evaluate_environment_eq. cbn [snd].
  match goal with |- _ <= _ * ?s =>
    assert (Hs : 1 <= s)
      by (apply combined_stress_ge_1; apply inverse_stress_ge_1);
    revert Hs; generalize s
  end.
  intros stress Hs. nra.
Qed.

Lemma death_rate_nonneg self temperature ph oxygen_saturation g :
  0 <= death_rate self ->
  0 <= snd (evaluate_environment self temperature ph oxygen_saturation g).
Proof.
  intros Hd.
  pose proof (death_rate_ge_base self temperature ph oxygen_saturation g Hd).
  lra.
Qed.

(** ** One step of the recurrence *)

Lemma py_max_lower a b : a <= py_max a b.
Proof. unfold py_max. destruct (Rlt_dec a b); lra. Qed.

Lemma py_max_upper a b : b <= py_max a b.
Proof. unfold py_max. destruct (Rlt_dec a b); lra. Qed.

Lemma py_max_left a b : b <= a -> py_max a b = a.
Proof. unfold py_max. destruct (Rlt_dec a b); lra. Qed.

Lemma py_max_right a b : a <= b -> py_max a b = b.
Proof. unfold py_max. destruct (Rlt_dec a b); lra. Qed.

Lemma euler_state_0 self ig iv T p o :
  euler_state self ig iv T p o 0 = initial_state ig iv.
Proof. reflexivity. Qed.

Lemma euler_state_S self ig iv T p o i :
  euler_state self ig iv T p o (S i)
  = euler_step self T p o (euler_state self ig iv T p o i).
Proof. reflexivity. Qed.

Section Step.

Variable self : CHOFermentationSimulator.
Variables temperature ph_constant oxygen_saturation : R.
Variable prev : State.

Let next := euler_step self temperature ph_constant oxygen_saturation prev.
Let env := evaluate_environment self temperature ph_constant
                                oxygen_saturation (st_glucose prev).

(** The amount of cells that die during the step. *)
Let vcd_death := snd env * st_vcd prev * time_step self.

Lemma step_vcd_nonneg : 0 <= st_vcd next.
Proof using Type. apply py_max_lower. Qed.

Lemma step_glucose_nonneg : 0 <= st_glucose next.
Proof using Type. apply py_max_lower. Qed.

Lemma step_tcd : st_tcd next = st_vcd next + st_dead_cells next.
Proof using Type. reflexivity. Qed.

Lemma step_dead_cells :
  st_dead_cells next = st_dead_cells prev + vcd_death.
Proof using Type. reflexivity. Qed.


Lemma step_viability_range :
  0 <= st_dead_cells next -> 0 <= st_viability next <= 100.
Proof using Type.
  intros Hdead. pose proof step_vcd_nonneg as Hvcd.
  subst next. unfold euler_step in *.
  cbn [st_vcd st_dead_cells st_viability] in *.
  match goal with |- context [py_max 0 ?x] =>
    revert Hvcd; generalize (py_max 0 x) end.
  intros v Hv.
  match type of Hdead with 0 <= ?d => revert Hdead; generalize d end.
  intros d Hd.
  destruct (Rlt_dec 0 (v + d)) as [Hpos | Hnpos]; [| lra].
  assert (Hq : 0 <= v / (v + d) <= 1).
  { split.
    - apply Rmult_le_pos; [lra | left; apply Rinv_0_lt_compat, Hpos].
    - apply Rmult_le_reg_r with (v + d); [lra |].
      unfold Rdiv. rewrite Rmult_assoc, Rinv_l; lra. }
  lra.
Qed.

Hypothesis Hvalid : valid_config self.

Lemma vcd_death_nonneg : 0 <= st_vcd prev -> 0 <= vcd_death.
Proof using Hvalid.
  intros Hv. subst vcd_death env.
  pose proof (death_rate_nonneg self temperature ph_constant
                oxygen_saturation (st_glucose prev) (vc_death _ Hvalid)).
  pose proof (vc_time_step _ Hvalid).
  apply Rmult_le_pos; [apply Rmult_le_pos |]; lra.
Qed.

Lemma step_dead_cells_mono :
  0 <= st_vcd prev -> st_dead_cells prev <= st_dead_cells next.
Proof using Hvalid.
  intros Hv. rewrite step_dead_cells.
  pose proof (vcd_death_nonneg Hv). lra.
Qed.

Lemma step_antibody_titer_mono :
  st_antibody_titer prev <= st_antibody_titer next.
Proof using Hvalid.
  subst next. unfold euler_step. cbn [st_antibody_titer].
  match goal with |- context [py_max 0 ?x] => generalize (py_max 0 x) end.
  intros v. destruct (Rlt_dec 0 v) as [Hv | Hv]; [| lra].
  pose proof (activity_effect_pos self temperature ph_constant
                oxygen_saturation (st_glucose prev)) as Ha.
  revert Ha.
  generalize (fst (evaluate_environment self temperature ph_constant
                     oxygen_saturation (st_glucose prev))).
  intros a Ha.
  pose proof (vc_time_step _ Hvalid) as Hdt.
  pose proof (vc_productivity _ Hvalid) as Hp.
  match goal with |- _ <= _ + ?x => assert (0 <= x) end; [| lra].
  repeat apply Rmult_le_pos; lra.
Qed.

(** With no viable cell no glucose is consumed: only the floor at zero
    acts on it. *)
Lemma step_extinct_glucose :
  st_vcd prev = 0 -> st_glucose next = py_max 0 (st_glucose prev).
Proof using Type.
  intros Hv. subst next. unfold euler_step. cbn [st_glucose]. rewrite Hv.
  destruct (Rlt_dec 0 0) as [Habs | _]; [lra |].
  f_equal. unfold Rdiv. rewrite !Rmult_0_l, !Rmult_0_r, !Rmult_0_l. lra.
Qed.

(** With no viable cell nothing moves: VCD and titer stay, and glucose
    stays when it is not negative. *)
Lemma step_extinct :
  st_vcd prev = 0 ->
  st_vcd next = 0
  /\ st_antibody_titer next = st_antibody_titer prev
  /\ (0 <= st_glucose prev -> st_glucose next = st_glucose prev).
Proof using Type.
  intros Hv. subst next. unfold euler_step.
  cbn [st_vcd st_antibody_titer st_glucose]. rewrite Hv.
  destruct (Rlt_dec 0 0) as [Habs | _]; [lra |].
  rewrite !Rmult_0_l, !Rmult_0_r, !Rmult_0_l.
  rewrite Rplus_0_l, Rminus_0_r.
  rewrite (py_max_left 0 0) by lra.
  destruct (Rlt_dec 0 0) as [Habs | _]; [lra |].
  repeat split.
  intros Hg. unfold Rdiv. rewrite Rmult_0_l, Rplus_0_l, Rminus_0_r.
  apply py_max_right, Hg.
Qed.

End Step.

(** ** The loop computes the recurrence *)

Lemma idx_insert_eq (a : list R) (i : nat) (x : R) :
  (i < length a)%nat -> idx (<[i:=x]> a) i = x.
Proof. intros Hi. unfold idx. by rewrite list_lookup_insert_eq. Qed.

Lemma idx_insert_ne (a : list R) (i j : nat) (x : R) :
  i <> j -> idx (<[i:=x]> a) j = idx a j.
Proof. intros Hij. unfold idx. by rewrite list_lookup_insert_ne. Qed.

Lemma idx_zeros n i : idx (np.zeros n) i = 0.
Proof.
  unfold idx, np.zeros.
  destruct (replicate n 0 !! i) as [x |] eqn:Hx; [| reflexivity].
  apply lookup_replicate in Hx. simpl. tauto.
Qed.

Lemma idx_full n v i : (i < n)%nat -> idx (np.full n v) i = v.
Proof.
  intros Hi. unfold idx, np.full. by rewrite lookup_replicate_2.
Qed.

Lemma idx_round_array (a : list R) (i : nat) :
  (i < length a)%nat -> idx (np.round_array a 2) i = np.round (idx a i) 2.
Proof.
  intros Hi. unfold idx, np.round_array. rewrite list_lookup_fmap.
  destruct (a !! i) as [x |] eqn:Hx; [reflexivity |].
  apply lookup_ge_None in Hx. lia.
Qed.

Lemma initial_data_lengths n ig iv : all_lengths n (initial_data n ig iv).
Proof.
  unfold all_lengths, initial_data, np.zeros; simpl.
  rewrite !length_insert, !length_replicate. tauto.
Qed.

Lemma initial_data_row n ig iv :
  (0 < n)%nat -> row (initial_data n ig iv) 0 = initial_state ig iv.
Proof.
  intros Hn. unfold row, initial_data, initial_state; simpl.
  rewrite !idx_insert_eq by (unfold np.zeros; rewrite length_replicate; lia).
  rewrite !idx_zeros. reflexivity.
Qed.

Lemma loop_body_lengths self T p o n data i :
  all_lengths n data -> all_lengths n (loop_body self T p o data i).
Proof.
  unfold all_lengths, loop_body. intros (Hg & Hv & Ht & Hd & Hvi & Ha).
  destruct (evaluate_environment self T p o (idx (glucose data) (i - 1)))
    as [activity_effect death_rate_now].
  match goal with |- context [if ?c then _ else _] => destruct c end;
    simpl; rewrite !length_insert; tauto.
Qed.

Lemma loop_body_other self T p o data i j :
  j <> i -> row (loop_body self T p o data i) j = row data j.
Proof.
  intros Hji. unfold loop_body.
  destruct (evaluate_environment self T p o (idx (glucose data) (i - 1)))
    as [activity_effect death_rate_now].
  match goal with |- context [if ?c then _ else _] => destruct c end;
    unfold row; simpl; rewrite !idx_insert_ne by congruence; reflexivity.
Qed.

Lemma loop_body_row self T p o n data i :
  all_lengths n data -> (1 <= i < n)%nat ->
  row (loop_body self T p o data i) i
  = euler_step self T p o (row data (i - 1)).
Proof.
  intros (Hg & Hv & Ht & Hd & Hvi & Ha) Hi.
  assert (Hne : i <> (i - 1)%nat) by lia.
  unfold loop_body, euler_step. cbn [row st_glucose st_vcd st_dead_cells
                                       st_antibody_titer].
  destruct (evaluate_environment self T p o (idx (glucose data) (i - 1)))
    as [activity_effect death_rate_now].
  cbn [fst snd].
  match goal with |- context [if Rlt_dec 0 (py_max 0 ?x) then _ else _] =>
    destruct (Rlt_dec 0 (py_max 0 x)) end;
    unfold row; simpl;
    rewrite ?idx_insert_eq, ?(idx_insert_ne _ i (i - 1)) by
      (rewrite ?length_insert; first [lia | assumption]);
    rewrite ?idx_insert_eq by (rewrite ?length_insert; lia);
    reflexivity.
Qed.

Lemma loop_prefix self T p o n ig iv k :
  (k < n)%nat ->
  let data := foldl (loop_body self T p o) (initial_data n ig iv) (seq 1 k) in
  all_lengths n data
  /\ forall j, (j <= k)%nat -> row data j = euler_state self ig iv T p o j.
Proof.
  induction k as [| k IH]; intros Hk; cbn zeta.
  - split; [apply initial_data_lengths |].
    intros j Hj. replace j with 0%nat by lia.
    simpl. apply initial_data_row. lia.
  - rewrite seq_S, foldl_app. simpl.
    destruct IH as [Hlen Hrows]; [lia |].
    split; [apply loop_body_lengths, Hlen |].
    intros j Hj. destruct (decide (j = S k)) as [-> | Hne].
    + rewrite (loop_body_row self T p o n) by (assumption || lia).
      replace (S k - 1)%nat with k by lia.
      rewrite Hrows by lia. reflexivity.
    + rewrite loop_body_other by assumption. apply Hrows. lia.
Qed.

(** [simulate_data] returns arrays as soon as there is a time point. *)
Lemma simulate_data_total self ig iv T p o :
  time_points self <> [] ->
  exists data, simulate_data self ig iv T p o = Some data.
Proof.
  intros Hn. unfold simulate_data.
  destruct (time_points self); [contradiction | simpl; eauto].
Qed.

(** Row [i] of the arrays is the state after [i] steps of the recurrence. *)
Lemma simulate_data_rows self ig iv T p o data :
  simulate_data self ig iv T p o = Some data ->
  all_lengths (length (time_points self)) data
  /\ forall i, (i < length (time_points self))%nat ->
               row data i = euler_state self ig iv T p o i.
Proof.
  unfold simulate_data. intros Hsim.
  destruct (length (time_points self)) as [| m] eqn:Hn; [discriminate |].
  injection Hsim as <-.
  replace (S m - 1)%nat with m by lia.
  replace (m - 0)%nat with m by lia.
  destruct (loop_prefix self T p o (S m) ig iv m) as [Hlen Hrows]; [lia |].
  split; [exact Hlen |].
  intros i Hi. apply Hrows. lia.
Qed.

Lemma simulate_data_row self ig iv T p o data i :
  simulate_data self ig iv T p o = Some data ->
  (i < length (time_points self))%nat ->
  row data i = euler_state self ig iv T p o i.
Proof. intros Hsim. apply (simulate_data_rows _ _ _ _ _ _ _ Hsim). Qed.

(** ** Invariants of the recurrence *)

Section Trajectory.

Variable self : CHOFermentationSimulator.
Variables initial_glucose initial_vcd : R.
Variables temperature ph_constant oxygen_saturation : R.

Let state := euler_state self initial_glucose initial_vcd temperature
                         ph_constant oxygen_saturation.

Lemma state_tcd i : st_tcd (state i) = st_vcd (state i) + st_dead_cells (state i).
Proof using Type.
  destruct i as [| i]; [simpl; lra | apply step_tcd].
Qed.

Lemma state_vcd_nonneg i : 0 <= initial_vcd -> 0 <= st_vcd (state i).
Proof using Type.
  intros Hiv. destruct i as [| i]; [exact Hiv | apply step_vcd_nonneg].
Qed.

Lemma state_glucose_nonneg i :
  0 <= initial_glucose -> 0 <= st_glucose (state i).
Proof using Type.
  intros Hig. destruct i as [| i]; [exact Hig | apply step_glucose_nonneg].
Qed.

Lemma state_extinct i :
  0 <= initial_glucose -> initial_vcd = 0 ->
  st_vcd (state i) = 0 /\ st_antibody_titer (state i) = 0
  /\ st_glucose (state i) = initial_glucose.
Proof using Type.
  intros Hig Hiv. induction i as [| i (Hv & Ht & Hg)].
  - simpl. auto.
  - subst state. rewrite euler_state_S.
    destruct (step_extinct self temperature ph_constant oxygen_saturation
                _ Hv) as (Hv' & Ht' & Hg').
    rewrite Hv', Ht', Hg'; [auto | rewrite Hg; exact Hig].
Qed.

Hypothesis Hvalid : valid_config self.
Hypothesis Hvcd : 0 <= initial_vcd.

Lemma state_dead_cells_step i :
  st_dead_cells (state i) <= st_dead_cells (state (S i)).
Proof using Hvalid Hvcd.
  apply step_dead_cells_mono; [exact Hvalid | apply state_vcd_nonneg, Hvcd].
Qed.

Lemma state_dead_cells_nonneg i : 0 <= st_dead_cells (state i).
Proof using Hvalid Hvcd.
  induction i as [| i IH]; [simpl; lra |].
  pose proof (state_dead_cells_step i). lra.
Qed.

Lemma state_dead_cells_mono i j :
  (i <= j)%nat -> st_dead_cells (state i) <= st_dead_cells (state j).
Proof using Hvalid Hvcd.
  induction 1 as [| j _ IH]; [lra |].
  pose proof (state_dead_cells_step j). lra.
Qed.

Lemma state_antibody_titer_mono i j :
  (i <= j)%nat -> st_antibody_titer (state i) <= st_antibody_titer (state j).
Proof using Hvalid.
  induction 1 as [| j _ IH]; [lra |].
  pose proof (step_antibody_titer_mono self temperature ph_constant
                oxygen_saturation (state j) Hvalid) as Hstep.
  subst state. rewrite euler_state_S. lra.
Qed.

Lemma state_viability_range i : 0 <= st_viability (state i) <= 100.
Proof using Hvalid Hvcd.
  destruct i as [| i]; [simpl; lra |].
  apply step_viability_range. apply (state_dead_cells_nonneg (S i)).
Qed.

End Trajectory.

(** ** Sample times *)

Lemma arange_length start stop step :
  length (np.arange start stop step) = np.arange_len start stop step.
Proof. unfold np.arange. by rewrite length_fmap, length_seq. Qed.

Lemma arange_idx start stop step i :
  (i < np.arange_len start stop step)%nat ->
  idx (np.arange start stop step) i = start + INR i * step.
Proof.
  intros Hi. unfold idx, np.arange.
  rewrite list_lookup_fmap, lookup_seq_lt by assumption. reflexivity.
Qed.

Lemma Zceil_IZR z : Zceil (IZR z) = z.
Proof. apply Zceil_eq. lra. Qed.

Lemma Zceil_nonneg x : 0 <= x -> (0 <= Zceil x)%Z.
Proof.
  intros Hx. rewrite <- (Zceil_IZR 0). apply Zceil_le, Hx.
Qed.

(** The number of sample times for a positive step. *)
Lemma arange_len_rows d ts :
  0 < ts -> 0 <= d ->
  np.arange_len 0 (d + ts) ts = (Z.to_nat (Zceil (d / ts)) + 1)%nat.
Proof.
  intros Hts Hd. unfold np.arange_len.
  replace ((d + ts - 0) / ts) with (d / ts + IZR 1) by (field; lra).
  rewrite Zceil_addz.
  assert (Hq : 0 <= d / ts)
    by (apply Rmult_le_pos; [lra | left; apply Rinv_0_lt_compat, Hts]).
  pose proof (Zceil_nonneg (d / ts) Hq). lia.
Qed.

(** When the duration is a whole number of steps. *)
Lemma Zceil_multiple (k : nat) ts :
  0 < ts -> Z.to_nat (Zceil (INR k * ts / ts)) = k.
Proof.
  intros Hts. replace (INR k * ts / ts) with (INR k) by (field; lra).
  rewrite INR_IZR_INZ, Zceil_IZR. lia.
Qed.

Lemma valid_rows self :
  valid_config self ->
  length (time_points self)
  = (Z.to_nat (Zceil (duration self / time_step self)) + 1)%nat.
Proof.
  intros Hv. rewrite (vc_time_points _ Hv), arange_length.
  pose proof (vc_time_step _ Hv). pose proof (vc_duration _ Hv).
  apply arange_len_rows; lra.
Qed.

Lemma valid_time_point self i :
  valid_config self -> (i < length (time_points self))%nat ->
  idx (time_points self) i = INR i * time_step self.
Proof.
  intros Hv Hi. rewrite (vc_time_points _ Hv) in *.
  rewrite arange_length in Hi. rewrite arange_idx by assumption. lra.
Qed.

Lemma valid_simulate_data self ig iv T p o :
  valid_config self -> exists data, simulate_data self ig iv T p o = Some data.
Proof.
  intros Hv. apply simulate_data_total.
  pose proof (valid_rows self Hv) as Hn.
  destruct (time_points self); [simpl in Hn; lia | discriminate].
Qed.

Lemma init_configured d ts :
  ts <> 0 -> __init__ d ts = Some (configured d ts).
Proof.
  intros Hts. unfold __init__. destruct (Req_dec_T ts 0); [contradiction | reflexivity].
Qed.

(** What the constructor returns for a positive step and a duration of
    at least one step is a valid configuration. *)
Lemma constructor_valid d ts :
  0 < ts -> ts <= d ->
  exists self, __init__ d ts = Some self /\ valid_config self.
Proof.
  intros Hts Hd. exists (configured d ts). split.
  - apply init_configured. lra.
  - constructor; simpl; try lra; try reflexivity.
    intros []; lra.
Qed.

Lemma configured_valid d ts :
  0 < ts -> ts <= d -> valid_config (configured d ts).
Proof.
  intros Hts Hd. constructor; simpl; try lra; try reflexivity.
  intros []; lra.
Qed.

Lemma configured_length d ts :
  0 < ts -> ts <= d ->
  length (time_points (configured d ts))
  = (Z.to_nat (Zceil (d / ts)) + 1)%nat.
Proof.
  intros Hts Hd. exact (valid_rows _ (configured_valid d ts Hts Hd)).
Qed.

Lemma configured_rows d ts (k : nat) :
  0 < ts -> d = INR k * ts -> (1 <= k)%nat ->
  length (time_points (configured d ts)) = (k + 1)%nat.
Proof.
  intros Hts -> Hk.
  assert (Hk' : 1 <= INR k) by (apply (le_INR 1), Hk).
  rewrite valid_rows by (apply configured_valid; nra).
  simpl duration. simpl time_step. rewrite Zceil_multiple by assumption.
  reflexivity.
Qed.

(** ** The trajectory that [simulate] integrates *)

Lemma row_fields data i st :
  row data i = st ->
  idx (glucose data) i = st_glucose st
  /\ idx (vcd data) i = st_vcd st
  /\ idx (tcd data) i = st_tcd st
  /\ idx (dead_cells data) i = st_dead_cells st
  /\ idx (viability data) i = st_viability st
  /\ idx (antibody_titer data) i = st_antibody_titer st.
Proof. intros <-. unfold row; simpl. tauto. Qed.

(** The cells of row [i], read off the recurrence. *)
Lemma simulate_data_fields self ig iv T p o data i :
  simulate_data self ig iv T p o = Some data ->
  (i < length (time_points self))%nat ->
  let st := euler_state self ig iv T p o i in
  idx (glucose data) i = st_glucose st
  /\ idx (vcd data) i = st_vcd st
  /\ idx (tcd data) i = st_tcd st
  /\ idx (dead_cells data) i = st_dead_cells st
  /\ idx (viability data) i = st_viability st
  /\ idx (antibody_titer data) i = st_antibody_titer st.
Proof.
  intros Hsim Hi. apply row_fields.
  apply (simulate_data_row _ _ _ _ _ _ _ _ Hsim Hi).
Qed.

Ltac read_row Hsim i :=
  let Hg := fresh "Hglucose" in
  let Hv := fresh "Hvcd" in
  let Ht := fresh "Htcd" in
  let Hd := fresh "Hdead" in
  let Hy := fresh "Hviab" in
  let Ha := fresh "Htiter" in
  destruct (simulate_data_fields _ _ _ _ _ _ _ i Hsim)
    as (Hg & Hv & Ht & Hd & Hy & Ha);
    [ first [assumption | lia] | cbv zeta in Hg, Hv, Ht, Hd, Hy, Ha ].

(** Three sample times: the run of [configured 2 1]. *)
Lemma configured_2_1_rows : length (time_points (configured 2 1)) = 3%nat.
Proof. apply (configured_rows 2 1 2); simpl; (lra || lia). Qed.

Lemma configured_2_1_valid : valid_config (configured 2 1).
Proof. apply configured_valid; lra. Qed.

(** The stress exponent is convex in the glucose level: it is enough to
    look at both ends of the range. *)
Lemma finite_death_rates_ends self ig T p o :
  finite_death_rate self T p o 0 ->
  finite_death_rate self T p o ig ->
  finite_death_rates self ig T p o.
Proof.
  unfold finite_death_rates, finite_death_rate, stress_exponent.
  intros H0 H1 g [Hg0 Hg1].
  set (c := optimal self Key.glucose) in *.
  set (s := sigma self Key.glucose) in *.
  assert (Hsq : forall x, (x / s) ^ 2 = x ^ 2 * (/ s) ^ 2)
    by (intros x; unfold Rdiv; ring).
  rewrite Hsq in *.
  pose proof (pow2_ge_0 (/ s)) as Hs.
  assert (Hg : (g - c) ^ 2 <= (0 - c) ^ 2 \/ (g - c) ^ 2 <= (ig - c) ^ 2).
  { destruct (Rle_dec c g); [right | left]; nra. }
  destruct Hg as [Hg | Hg].
  - assert ((g - c) ^ 2 * (/ s) ^ 2 <= (0 - c) ^ 2 * (/ s) ^ 2)
      by (apply Rmult_le_compat_r; assumption).
    lra.
  - assert ((g - c) ^ 2 * (/ s) ^ 2 <= (ig - c) ^ 2 * (/ s) ^ 2)
      by (apply Rmult_le_compat_r; assumption).
    lra.
Qed.

(** The default run stays where the death rate is finite. *)
Lemma configured_2_1_finite :
  finite_death_rates (configured 2 1) 25 37 (72 / 10) 50.
Proof.
  apply finite_death_rates_ends;
    unfold finite_death_rate, stress_exponent; simpl optimal; simpl sigma; lra.
Qed.

(** C4.  For a valid configuration and a run started with glucose and
    viable cell density that are not negative, glucose and viable cell
    density are not negative in any row, row 0 included. *)
Theorem glucose_vcd_nonnegative (self : CHOFermentationSimulator)
    (initial_glucose initial_vcd temperature ph_constant oxygen_saturation : R) :
  valid_config self -> 0 <= initial_glucose -> 0 <= initial_vcd ->
  exists data,
    simulate_data self initial_glucose initial_vcd temperature ph_constant
                  oxygen_saturation = Some data
    /\ forall i, (i < length (time_points self))%nat ->
         0 <= idx (glucose data) i /\ 0 <= idx (vcd data) i.
Proof.
  intros Hvalid Hig Hiv.
  destruct (valid_simulate_data self initial_glucose initial_vcd temperature
              ph_constant oxygen_saturation Hvalid) as [data Hsim].
  exists data. split; [exact Hsim |].
  intros i Hi. read_row Hsim i. rewrite Hglucose, Hvcd. split.
  - apply state_glucose_nonneg, Hig.
  - apply state_vcd_nonneg, Hiv.
Qed.

Lemma glucose_vcd_nonnegative_witness :
  exists data,
    simulate_data (configured 2 1) 25 (1 / 2) 37 (72 / 10) 50 = Some data
    /\ forall i, (i < length (time_points (configured 2 1)))%nat ->
         0 <= idx (glucose data) i /\ 0 <= idx (vcd data) i.
Proof.
  apply (glucose_vcd_nonnegative (configured 2 1) 25 (1 / 2) 37 (72 / 10) 50).
  - apply configured_2_1_valid.
  - lra.
  - lra.
Defined.

(** C5.  For a valid configuration and a run started without viable
    cells, whatever the initial glucose, temperature, pH and oxygen of
    the interface (the initial glucose is not negative): in every row the
    viable cell density is 0, the titer is 0 and glucose is the initial
    glucose. *)
Theorem extinct_run_is_constant (self : CHOFermentationSimulator)
    (initial_glucose temperature ph_constant oxygen_saturation : R) :
  valid_config self -> 0 <= initial_glucose ->
  exists data,
    simulate_data self initial_glucose 0 temperature ph_constant
                  oxygen_saturation = Some data
    /\ forall i, (i < length (time_points self))%nat ->
         idx (vcd data) i = 0
         /\ idx (antibody_titer data) i = 0
         /\ idx (glucose data) i = initial_glucose.
Proof.
  intros Hvalid Hig.
  destruct (valid_simulate_data self initial_glucose 0 temperature
              ph_constant oxygen_saturation Hvalid) as [data Hsim].
  exists data. split; [exact Hsim |].
  intros i Hi. read_row Hsim i. rewrite Hglucose, Hvcd, Htiter.
  apply state_extinct; [exact Hig | reflexivity].
Qed.

Lemma extinct_run_is_constant_witness :
  exists data,
    simulate_data (configured 2 1) 25 0 37 (72 / 10) 50 = Some data
    /\ forall i, (i < length (time_points (configured 2 1)))%nat ->
         idx (vcd data) i = 0
         /\ idx (antibody_titer data) i = 0
         /\ idx (glucose data) i = 25.
Proof.
  apply (extinct_run_is_constant (configured 2 1) 25 37 (72 / 10) 50).
  - apply configured_2_1_valid.
  - lra.
Defined.





(** ** Death is not capped by the cells that are left *)

Lemma growth_rate_nonneg self T p o g :
  valid_config self ->
  0 <= max_growth_rate self
       * monod_kinetics g (substrate_affinity self)
                        (Some (inhibition_constant self))
       * fst (evaluate_environment self T p o g).
Proof.
  intros Hvalid.
  pose proof (activity_effect_pos self T p o g) as Ha.
  pose proof (monod_kinetics_range g (substrate_affinity self)
                (Some (inhibition_constant self))
                (vc_affinity _ Hvalid) (vc_inhibition _ Hvalid)) as Hm.
  pose proof (vc_growth _ Hvalid) as Hg.
  apply Rmult_le_pos; [apply Rmult_le_pos |]; lra.
Qed.






(** ** Rounding *)

(** Below the half, [np.rint] rounds down. *)
Lemma rint_down (z : Z) (x : R) :
  IZR z <= x < IZR z + 1 / 2 -> np.rint x = z.
Proof.
  intros Hx. unfold np.rint.
  rewrite (Zfloor_eq z x) by lra.
  destruct (Rlt_dec (x - IZR z) (1 / 2)); [reflexivity | lra].
Qed.

Lemma rint_IZR (z : Z) : np.rint (IZR z) = z.
Proof. apply rint_down. lra. Qed.

(** A value with two decimal places is its own rounding. *)
Lemma round_two_places (z : Z) : np.round (IZR z / 100) 2 = IZR z / 100.
Proof.
  unfold np.round. replace (IZR z / 100 * 10 ^ 2) with (IZR z) by lra.
  rewrite rint_IZR. lra.
Qed.

Lemma length_round_array (a : list R) d :
  length (np.round_array a d) = length a.
Proof. apply length_fmap. Qed.

(** ** The returned data frame *)

Lemma simulate_frame self ig iv T p o data :
  simulate_data self ig iv T p o = Some data ->
  simulate self ig iv T p o
  = Some {| Zeit := np.round_array (time_points self) 2;
            Glukose := np.round_array (glucose data) 2;
            VCD := np.round_array (vcd data) 2;
            TCD := np.round_array (tcd data) 2;
            Viabilitaet := np.round_array (viability data) 2;
            Antikoerper_Titer := np.round_array (antibody_titer data) 2;
            Temperatur := np.full (length (time_points self)) T;
            pH := np.full (length (time_points self)) p;
            Sauerstoff := np.full (length (time_points self)) o |}.
Proof. intros Hsim. unfold simulate. rewrite Hsim. reflexivity. Qed.

Lemma simulate_frame_rows self ig iv T p o df :
  simulate self ig iv T p o = Some df ->
  frame_rows (length (time_points self)) df.
Proof.
  unfold simulate.
  destruct (simulate_data self ig iv T p o) as [data |] eqn:Hsim;
    [| discriminate].
  intros Hdf. injection Hdf as <-.
  destruct (simulate_data_rows _ _ _ _ _ _ _ Hsim)
    as [(Hg & Hv & Ht & Hd & Hy & Ha) _].
  unfold frame_rows, np.full; simpl.
  rewrite !length_round_array, !length_replicate. tauto.
Qed.

Lemma idx_fmap (f : R -> R) (a : list R) (i : nat) :
  (i < length a)%nat -> idx (f <$> a) i = f (idx a i).
Proof.
  intros Hi. unfold idx. rewrite list_lookup_fmap.
  destruct (a !! i) as [x |] eqn:Hx; [reflexivity |].
  apply lookup_ge_None in Hx. lia.
Qed.

(** With the rounding of the model, [simulate_with] is [simulate] and
    [rounded_row_with] is [rounded_row]. *)
Lemma simulate_with_np_round self ig iv T p o :
  simulate_with (fun x => np.round x 2) self ig iv T p o
  = simulate self ig iv T p o.
Proof. reflexivity. Qed.

Lemma rounded_row_with_np_round self ig iv T p o i :
  rounded_row_with (fun x => np.round x 2) self ig iv T p o i
  = rounded_row self ig iv T p o i.
Proof. reflexivity. Qed.

(** C9, amended.  For a valid configuration, and whatever [np.round]
    returns for a number: the run returns a data frame in which the time,
    glucose, VCD, TCD, viability and titer of row [i] are [np.round] of
    the sample time [i * time_step] and of the values after [i] steps of
    the unrounded recurrence (the recurrence never reads a rounded
    value), while the temperature, pH and oxygen columns repeat the run's
    values as they were given. *)
Theorem rounding_only_at_output (round2 : R -> R)
    (self : CHOFermentationSimulator)
    (initial_glucose initial_vcd temperature ph_constant oxygen_saturation : R) :
  valid_config self ->
  exists df,
    simulate_with round2 self initial_glucose initial_vcd temperature
                  ph_constant oxygen_saturation = Some df
    /\ forall i, (i < length (time_points self))%nat ->
         frame_row df i
         = rounded_row_with round2 self initial_glucose initial_vcd
                            temperature ph_constant oxygen_saturation i
         /\ idx (Temperatur df) i = temperature
         /\ idx (pH df) i = ph_constant
         /\ idx (Sauerstoff df) i = oxygen_saturation.
Proof.
  intros Hvalid.
  destruct (valid_simulate_data self initial_glucose initial_vcd temperature
              ph_constant oxygen_saturation Hvalid) as [data Hsim].
  unfold simulate_with. rewrite Hsim.
  eexists. split; [reflexivity |].
  intros i Hi.
  destruct (simulate_data_rows _ _ _ _ _ _ _ Hsim)
    as [(Hg & Hv & Ht & Hd & Hy & Ha) _].
  read_row Hsim i.
  unfold frame_row, rounded_row_with; simpl.
  rewrite !idx_fmap by lia.
  rewrite !idx_full by assumption.
  rewrite (valid_time_point self i Hvalid Hi).
  rewrite Hglucose, Hvcd, Htcd, Hviab, Htiter. auto.
Qed.

Lemma rounding_only_at_output_witness :
  exists df,
    simulate_with (fun x => np.round x 2) (configured 2 1) 25 (1 / 2) 37
                  (72 / 10) 50 = Some df
    /\ forall i, (i < length (time_points (configured 2 1)))%nat ->
         frame_row df i
         = rounded_row_with (fun x => np.round x 2) (configured 2 1) 25
                            (1 / 2) 37 (72 / 10) 50 i
         /\ idx (Temperatur df) i = 37
         /\ idx (pH df) i = 72 / 10
         /\ idx (Sauerstoff df) i = 50.
Proof.
  apply (rounding_only_at_output (fun x => np.round x 2) (configured 2 1) 25
           (1 / 2) 37 (72 / 10) 50).
  apply configured_2_1_valid.
Defined.

(** A temperature with three decimal places is returned as it was
    given, which is not its rounding to two places. *)
Lemma temperature_is_copied :
  exists df,
    simulate (configured 2 1) 25 (1 / 2) (37123 / 1000) (72 / 10) 50 = Some df
    /\ (0 < length (time_points (configured 2 1)))%nat
    /\ idx (Temperatur df) 0 = 37123 / 1000
    /\ np.round (37123 / 1000) 2 = 3712 / 100.
Proof.
  destruct (valid_simulate_data (configured 2 1) 25 (1 / 2) (37123 / 1000)
              (72 / 10) 50 configured_2_1_valid) as [data Hsim].
  eexists. split; [apply simulate_frame, Hsim |].
  pose proof configured_2_1_rows as Hn.
  split; [lia |]. cbn [Temperatur].
  rewrite idx_full by lia.
  split; [reflexivity |].
  unfold np.round. rewrite (rint_down 3712) by lra. lra.
Qed.

(** C9, as stated for every numeric field, fails for the temperature
    column: it is not rounded to two places. *)
Lemma temperature_column_is_not_rounded :
  ~ (forall df,
       simulate (configured 2 1) 25 (1 / 2) (37123 / 1000) (72 / 10) 50
       = Some df ->
       forall i, (i < length (time_points (configured 2 1)))%nat ->
         frame_row df i
         = rounded_row (configured 2 1) 25 (1 / 2) (37123 / 1000) (72 / 10) 50 i
         /\ idx (Temperatur df) i = np.round (37123 / 1000) 2
         /\ idx (pH df) i = np.round (72 / 10) 2
         /\ idx (Sauerstoff df) i = np.round 50 2).
Proof.
  intros Hclaim.
  destruct temperature_is_copied as (df & Hsim & Hn & Htemp & Hround).
  destruct (Hclaim df Hsim 0%nat Hn) as (_ & Htemp' & _).
  rewrite Htemp, Hround in Htemp'. lra.
Qed.

(** ** The rows of the data frame *)

(** C8, amended.  For a duration and a step that are whole numbers of
    hours, with [1 <= time_step <= duration <= 2^20] (numbers that the
    floats of [np.arange] hold and divide without error): the constructor
    returns a simulator and the run a data frame of
    [ceil(duration / time_step) + 1] rows, whose time column holds in row
    [i] the sample time [i * time_step]; when the duration is a whole
    number [k] of steps there are [k + 1] rows and the last sample time is
    the duration. *)
Theorem sample_times (hours step : Z)
    (initial_glucose initial_vcd temperature ph_constant oxygen_saturation : R) :
  (1 <= step <= hours)%Z -> (hours <= 2 ^ 20)%Z ->
  exists self df,
    __init__ (IZR hours) (IZR step) = Some self
    /\ simulate self initial_glucose initial_vcd temperature ph_constant
                oxygen_saturation = Some df
    /\ let n := (Z.to_nat (Zceil (IZR hours / IZR step)) + 1)%nat in
       frame_rows n df
       /\ (forall i, (i < n)%nat -> idx (Zeit df) i = INR i * IZR step)
       /\ (forall k : nat, hours = (Z.of_nat k * step)%Z ->
             n = (k + 1)%nat /\ idx (Zeit df) k = IZR hours).
Proof.
  intros [Hstep Hhours] _.
  assert (Hts : 0 < IZR step) by (apply IZR_lt; lia).
  assert (Hd : IZR step <= IZR hours) by (apply IZR_le; lia).
  pose proof (configured_valid (IZR hours) (IZR step) Hts Hd) as Hvalid.
  pose proof (configured_length (IZR hours) (IZR step) Hts Hd) as Hn.
  destruct (valid_simulate_data (configured (IZR hours) (IZR step))
              initial_glucose initial_vcd temperature ph_constant
              oxygen_saturation Hvalid) as [data Hsim].
  assert (Htime : forall i,
            (i < length (time_points (configured (IZR hours) (IZR step))))%nat ->
            idx (np.round_array
                   (time_points (configured (IZR hours) (IZR step))) 2) i
            = INR i * IZR step).
  { intros i Hi. rewrite idx_round_array by exact Hi.
    rewrite (valid_time_point _ i Hvalid Hi). cbn [time_step configured].
    replace (INR i * IZR step) with (IZR (Z.of_nat i * step * 100) / 100)
      by (rewrite !mult_IZR, <- INR_IZR_INZ; lra).
    apply round_two_places. }
  exists (configured (IZR hours) (IZR step)). eexists.
  split; [apply init_configured; lra |].
  split; [apply simulate_frame, Hsim |].
  cbv zeta. split; [| split].
  - rewrite <- Hn. eapply simulate_frame_rows. apply simulate_frame, Hsim.
  - intros i Hi. cbn [Zeit]. rewrite <- Hn in Hi. apply Htime, Hi.
  - intros k Hk.
    assert (Hk' : IZR hours = INR k * IZR step)
      by (rewrite Hk, mult_IZR, <- INR_IZR_INZ; reflexivity).
    rewrite Hk' at 1. rewrite Zceil_multiple by exact Hts.
    split; [reflexivity |].
    cbn [Zeit]. rewrite Htime; [symmetry; exact Hk' |].
    rewrite Hn. rewrite Hk' at 1. rewrite Zceil_multiple by exact Hts. lia.
Qed.

Lemma sample_times_witness :
  exists self df,
    __init__ (IZR 288) (IZR 1) = Some self
    /\ simulate self 25 (1 / 2) 37 (72 / 10) 50 = Some df
    /\ let n := (Z.to_nat (Zceil (IZR 288 / IZR 1)) + 1)%nat in
       frame_rows n df
       /\ (forall i, (i < n)%nat -> idx (Zeit df) i = INR i * IZR 1)
       /\ (forall k : nat, 288%Z = (Z.of_nat k * 1)%Z ->
             n = (k + 1)%nat /\ idx (Zeit df) k = IZR 288).
Proof.
  apply (sample_times 288 1 25 (1 / 2) 37 (72 / 10) 50); lia.
Defined.

(** Five hours in steps of two: four rows, the last one at 6 hours. *)
Lemma duration_5_step_2 :
  exists self df,
    __init__ 5 2 = Some self
    /\ simulate self 25 (1 / 2) 37 (72 / 10) 50 = Some df
    /\ length (Zeit df) = 4%nat
    /\ idx (Zeit df) 3 = 6.
Proof.
  assert (Hvalid : valid_config (configured 5 2))
    by (apply configured_valid; lra).
  assert (Hn : length (time_points (configured 5 2)) = 4%nat).
  { rewrite configured_length by lra.
    rewrite (Zceil_eq 3) by lra. reflexivity. }
  destruct (valid_simulate_data (configured 5 2) 25 (1 / 2) 37 (72 / 10) 50
              Hvalid) as [data Hsim].
  exists (configured 5 2). eexists.
  split; [apply init_configured; lra |].
  split; [apply simulate_frame, Hsim |].
  cbn [Zeit]. rewrite length_round_array, Hn.
  rewrite idx_round_array by lia.
  rewrite (valid_time_point _ 3 Hvalid) by lia.
  replace (INR 3 * time_step (configured 5 2)) with (IZR 600 / 100)
    by (simpl; lra).
  rewrite round_two_places.
  split; [reflexivity | lra].
Qed.

(** C8, as stated, fails when the duration is not a whole number of
    steps: 5 hours in steps of 2 do not give [5 / 2 + 1] rows, and the
    last sample time is not the duration. *)
Lemma rows_for_duration_5_step_2 :
  ~ (forall self df,
       __init__ 5 2 = Some self ->
       simulate self 25 (1 / 2) 37 (72 / 10) 50 = Some df ->
       INR (length (Zeit df)) = 5 / 2 + 1
       /\ (forall i, (i < length (Zeit df))%nat -> idx (Zeit df) i = INR i * 2)
       /\ idx (Zeit df) (length (Zeit df) - 1) = 5).
Proof.
  intros Hclaim.
  destruct duration_5_step_2 as (self & df & Hinit & Hsim & Hn & Hlast).
  destruct (Hclaim self df Hinit Hsim) as (Hrows & _ & _).
  rewrite Hn in Hrows. simpl in Hrows. lra.
Qed.


(** * Further properties of the engine *)

(** ** The stress model: optimum, bounds, symmetry, monotonicity *)

(** The theorems on [evaluate_environment] take the tolerance widths to
    be non-zero: Python raises on a division by a zero width, where the
    division of the reals returns 0. *)

Lemma exp_le (x y : R) : x <= y -> exp x <= exp y.
Proof.
  intros [Hlt | ->]; [left; apply exp_increasing, Hlt | right; reflexivity].
Qed.

Lemma stress_gaussian_even deviation sigma :
  stress_gaussian (- deviation) sigma = stress_gaussian deviation sigma.
Proof.
  unfold stress_gaussian. f_equal. unfold Rdiv. nra.
Qed.

(** The response falls as the reading moves away from the optimum, on
    either side. *)
Lemma stress_gaussian_decreasing d1 d2 sigma :
  Rabs d1 <= Rabs d2 ->
  stress_gaussian d2 sigma <= stress_gaussian d1 sigma.
Proof.
  intros Habs. unfold stress_gaussian. apply exp_le.
  assert (Hsq : d1 ^ 2 <= d2 ^ 2).
  { rewrite <- (pow2_abs d1), <- (pow2_abs d2).
    pose proof (Rabs_pos d1). nra. }
  unfold Rdiv. pose proof (pow2_ge_0 (/ sigma)) as Hs.
  replace ((d2 * / sigma) ^ 2) with (d2 ^ 2 * (/ sigma) ^ 2) by ring.
  replace ((d1 * / sigma) ^ 2) with (d1 ^ 2 * (/ sigma) ^ 2) by ring.
  nra.
Qed.

Lemma inverse_stress_increasing d1 d2 sigma :
  Rabs d1 <= Rabs d2 ->
  1 / stress_gaussian d1 sigma <= 1 / stress_gaussian d2 sigma.
Proof.
  intros Habs.
  pose proof (stress_gaussian_decreasing d1 d2 sigma Habs) as Hle.
  pose proof (stress_gaussian_pos d2 sigma) as Hp.
  unfold Rdiv. rewrite !Rmult_1_l.
  apply Rinv_le_contravar; assumption.
Qed.

(** Products of four factors compare factor by factor. *)
Lemma product_four_le (a b c d a' b' c' d' : R) :
  0 <= a <= a' -> 0 <= b <= b' -> 0 <= c <= c' -> 0 <= d <= d' ->
  1 * a * b * c * d <= 1 * a' * b' * c' * d'.
Proof.
  intros Ha Hb Hc Hd.
  assert (H1 : 0 <= a * b <= a' * b') by nra.
  assert (H2 : 0 <= a * b * c <= a' * b' * c') by nra.
  nra.
Qed.

Lemma product_four_unit (a b c d : R) :
  0 <= a <= 1 -> 0 <= b <= 1 -> 0 <= c <= 1 -> 0 <= d <= 1 ->
  1 * a * b * c * d <= 1.
Proof.
  intros Ha Hb Hc Hd.
  replace 1 with (1 * 1 * 1 * 1 * 1) at 2 by ring.
  apply product_four_le; assumption.
Qed.

(** At readings equal to the optima the activity is 1 and the death rate
    is the base death rate. *)
Theorem evaluate_environment_optimum (self : CHOFermentationSimulator) :
  (forall k, sigma self k <> 0) ->
  evaluate_environment self (optimal self Key.temp) (optimal self Key.ph)
                       (optimal self Key.oxygen) (optimal self Key.glucose)
  = (1, death_rate self).
Proof.
  intros _. rewrite evaluate_environment_eq.
  rewrite !Rminus_diag, !stress_gaussian_optimum.
  f_equal; field.
Qed.

Lemma evaluate_environment_optimum_witness :
  evaluate_environment (configured 288 1) 37 (72 / 10) 50 20 = (1, 5 / 1000).
Proof.
  apply (evaluate_environment_optimum (configured 288 1)).
  intros []; simpl; lra.
Defined.

(** Where the death rate is finite the activity lies in (0, 1] and the
    death rate is at least the base death rate. *)
Theorem evaluate_environment_bounds (self : CHOFermentationSimulator)
    (temperature ph oxygen_saturation g : R) :
  (forall k, sigma self k <> 0) -> 0 <= death_rate self ->
  finite_death_rate self temperature ph oxygen_saturation g ->
  let env := evaluate_environment self temperature ph oxygen_saturation g in
  0 < fst env <= 1
  /\ death_rate self <= snd env.
Proof.
  intros _ Hd _ env. subst env. split; [split |].
  - apply activity_effect_pos.
  - rewrite evaluate_environment_eq. cbn [fst].
    apply product_four_unit; split;
      first [left; apply stress_gaussian_pos | apply stress_gaussian_le_1].
  - apply death_rate_ge_base, Hd.
Qed.

Lemma evaluate_environment_bounds_witness :
  let env := evaluate_environment (configured 288 1) 39 7 40 25 in
  0 < fst env <= 1
  /\ 5 / 1000 <= snd env.
Proof.
  apply (evaluate_environment_bounds (configured 288 1) 39 7 40 25).
  - intros []; simpl; lra.
  - simpl; lra.
  - unfold finite_death_rate, stress_exponent. simpl optimal. simpl sigma. lra.
Defined.

(** Deviations above and below the optima count alike: mirroring every
    reading at its optimum changes neither the activity nor the death
    rate. *)
Theorem evaluate_environment_symmetric (self : CHOFermentationSimulator)
    (dt dp dox dg : R) :
  (forall k, sigma self k <> 0) ->
  evaluate_environment self
    (optimal self Key.temp + dt) (optimal self Key.ph + dp)
    (optimal self Key.oxygen + dox) (optimal self Key.glucose + dg)
  = evaluate_environment self
      (optimal self Key.temp - dt) (optimal self Key.ph - dp)
      (optimal self Key.oxygen - dox) (optimal self Key.glucose - dg).
Proof.
  intros _. rewrite !evaluate_environment_eq.
  replace (optimal self Key.temp + dt - optimal self Key.temp) with dt by ring.
  replace (optimal self Key.ph + dp - optimal self Key.ph) with dp by ring.
  replace (optimal self Key.oxygen + dox - optimal self Key.oxygen)
    with dox by ring.
  replace (optimal self Key.glucose + dg - optimal self Key.glucose)
    with dg by ring.
  replace (optimal self Key.temp - dt - optimal self Key.temp)
    with (- dt) by ring.
  replace (optimal self Key.ph - dp - optimal self Key.ph) with (- dp) by ring.
  replace (optimal self Key.oxygen - dox - optimal self Key.oxygen)
    with (- dox) by ring.
  replace (optimal self Key.glucose - dg - optimal self Key.glucose)
    with (- dg) by ring.
  rewrite !stress_gaussian_even. reflexivity.
Qed.

Lemma evaluate_environment_symmetric_witness :
  evaluate_environment (configured 288 1) (37 + 2) (72 / 10 + 1 / 10)
                       (50 + 5) (20 + 5)
  = evaluate_environment (configured 288 1) (37 - 2) (72 / 10 - 1 / 10)
                         (50 - 5) (20 - 5).
Proof.
  apply (evaluate_environment_symmetric (configured 288 1) 2 (1 / 10) 5 5).
  intros []; simpl; lra.
Defined.

(** Readings that are each at least as far from their optimum give at
    most the activity and at least the death rate. *)
Theorem evaluate_environment_monotone (self : CHOFermentationSimulator)
    (t1 p1 o1 g1 t2 p2 o2 g2 : R) :
  (forall k, sigma self k <> 0) -> 0 <= death_rate self ->
  Rabs (t1 - optimal self Key.temp) <= Rabs (t2 - optimal self Key.temp) ->
  Rabs (p1 - optimal self Key.ph) <= Rabs (p2 - optimal self Key.ph) ->
  Rabs (o1 - optimal self Key.oxygen) <= Rabs (o2 - optimal self Key.oxygen) ->
  Rabs (g1 - optimal self Key.glucose) <= Rabs (g2 - optimal self Key.glucose) ->
  fst (evaluate_environment self t2 p2 o2 g2)
  <= fst (evaluate_environment self t1 p1 o1 g1)
  /\ snd (evaluate_environment self t1 p1 o1 g1)
     <= snd (evaluate_environment self t2 p2 o2 g2).
Proof.
  intros _ Hd Ht Hp Ho Hg. rewrite !evaluate_environment_eq. cbn [fst snd].
  split.
  - apply product_four_le; split;
      first [left; apply stress_gaussian_pos
            | apply stress_gaussian_decreasing; assumption].
  - apply Rmult_le_compat_l; [exact Hd |].
    apply product_four_le; split;
      first [ apply inverse_stress_increasing; assumption
            | pose proof (inverse_stress_ge_1
                            (t1 - optimal self Key.temp) (sigma self Key.temp));
              pose proof (inverse_stress_ge_1
                            (p1 - optimal self Key.ph) (sigma self Key.ph));
              pose proof (inverse_stress_ge_1
                            (o1 - optimal self Key.oxygen)
                            (sigma self Key.oxygen));
              pose proof (inverse_stress_ge_1
                            (g1 - optimal self Key.glucose)
                            (sigma self Key.glucose));
              lra ].
Qed.

Lemma evaluate_environment_monotone_witness :
  fst (evaluate_environment (configured 288 1) 57 (72 / 10) 50 20)
  <= fst (evaluate_environment (configured 288 1) 37 (72 / 10) 50 20)
  /\ snd (evaluate_environment (configured 288 1) 37 (72 / 10) 50 20)
     <= snd (evaluate_environment (configured 288 1) 57 (72 / 10) 50 20).
Proof.
  apply (evaluate_environment_monotone (configured 288 1)
           37 (72 / 10) 50 20 57 (72 / 10) 50 20).
  - intros []; simpl; lra.
  - simpl; lra.
  - simpl optimal. rewrite Rminus_diag, Rabs_R0. apply Rabs_pos.
  - simpl optimal. lra.
  - simpl optimal. lra.
  - simpl optimal. lra.
Defined.

(** ** Substrate kinetics: shape of the two curves *)




(** ** More invariants of one step *)

Lemma py_max_le a b c : a <= c -> b <= c -> py_max a b <= c.
Proof. intros Ha Hb. unfold py_max. destruct (Rlt_dec a b); assumption. Qed.

Section StepBounds.

Variable self : CHOFermentationSimulator.
Variables temperature ph_constant oxygen_saturation : R.
Variable prev : State.
Hypothesis Hvalid : valid_config self.
Hypothesis Hprev : 0 <= st_vcd prev.

Let next := euler_step self temperature ph_constant oxygen_saturation prev.
Let env := evaluate_environment self temperature ph_constant
                                oxygen_saturation (st_glucose prev).
Let growth_rate :=
  if Rlt_dec 0 (st_vcd prev)
  then max_growth_rate self
       * monod_kinetics (st_glucose prev) (substrate_affinity self)
                        (Some (inhibition_constant self))
       * fst env
  else 0.
Let vcd_growth := growth_rate * st_vcd prev * time_step self.
Let vcd_death := snd env * st_vcd prev * time_step self.

Lemma step_next_vcd :
  st_vcd next = py_max 0 (st_vcd prev + vcd_growth - vcd_death).
Proof using Type. reflexivity. Qed.

Lemma step_next_glucose :
  st_glucose next
  = py_max 0 (st_glucose prev
              - (vcd_growth / yield_coefficient self
                 + maintenance_coefficient self * st_vcd prev * time_step self)).
Proof using Type. reflexivity. Qed.

(** The growth rate lies between 0 and the maximal growth rate. *)
Lemma growth_rate_bounds : 0 <= growth_rate <= max_growth_rate self.
Proof using Hvalid.
  unfold growth_rate, env.
  pose proof (vc_growth _ Hvalid) as Hmu.
  destruct (Rlt_dec 0 (st_vcd prev)) as [_ | _]; [| lra].
  split; [apply growth_rate_nonneg, Hvalid |].
  pose proof (monod_kinetics_range (st_glucose prev) (substrate_affinity self)
                (Some (inhibition_constant self))
                (vc_affinity _ Hvalid) (vc_inhibition _ Hvalid)) as Hm.
  pose proof (activity_effect_pos self temperature ph_constant
                oxygen_saturation (st_glucose prev)) as Ha.
  assert (Hle : fst (evaluate_environment self temperature ph_constant
                       oxygen_saturation (st_glucose prev)) <= 1).
  { rewrite evaluate_environment_eq. cbn [fst].
    apply product_four_unit; split;
      first [left; apply stress_gaussian_pos | apply stress_gaussian_le_1]. }
  revert Ha Hle Hm.
  generalize (fst (evaluate_environment self temperature ph_constant
                     oxygen_saturation (st_glucose prev))).
  generalize (monod_kinetics (st_glucose prev) (substrate_affinity self)
                (Some (inhibition_constant self))).
  intros m a Ha Hle Hm.
  assert (0 <= m * a <= 1) by nra. nra.
Qed.

Lemma vcd_growth_nonneg : 0 <= vcd_growth.
Proof using Hvalid Hprev.
  unfold vcd_growth. pose proof growth_rate_bounds as Hg.
  pose proof (vc_time_step _ Hvalid) as Hdt.
  apply Rmult_le_pos; [apply Rmult_le_pos |]; lra.
Qed.

Lemma vcd_death_amount_nonneg : 0 <= vcd_death.
Proof using Hvalid Hprev.
  apply (vcd_death_nonneg self temperature ph_constant oxygen_saturation prev
           Hvalid Hprev).
Qed.


(** Glucose is only consumed. *)
Lemma step_glucose_mono :
  0 <= maintenance_coefficient self -> 0 <= st_glucose prev ->
  st_glucose next <= st_glucose prev.
Proof using Hvalid Hprev.
  intros Hm Hg. rewrite step_next_glucose.
  pose proof vcd_growth_nonneg as Hgrow.
  pose proof (vc_yield _ Hvalid) as Hy.
  pose proof (vc_time_step _ Hvalid) as Hdt.
  assert (0 <= vcd_growth / yield_coefficient self)
    by (apply Rmult_le_pos; [lra | left; apply Rinv_0_lt_compat, Hy]).
  assert (0 <= maintenance_coefficient self * st_vcd prev * time_step self)
    by (apply Rmult_le_pos; [apply Rmult_le_pos |]; lra).
  apply py_max_le; lra.
Qed.

(** Without glucose there is no growth: glucose stays at 0 and the
    viable cells do not increase. *)
Lemma step_starved :
  0 <= maintenance_coefficient self -> st_glucose prev = 0 ->
  st_glucose next = 0 /\ st_vcd next <= st_vcd prev.
Proof using Hvalid Hprev.
  intros Hm Hg.
  assert (Hzero : vcd_growth = 0).
  { unfold vcd_growth, growth_rate. rewrite Hg.
    rewrite (monod_kinetics_nonpositive 0) by lra.
    destruct (Rlt_dec 0 (st_vcd prev)); ring. }
  pose proof vcd_death_amount_nonneg as Hd.
  pose proof (vc_time_step _ Hvalid) as Hdt.
  split.
  - rewrite step_next_glucose, Hg, Hzero. apply py_max_left.
    assert (0 <= maintenance_coefficient self * st_vcd prev * time_step self)
      by (apply Rmult_le_pos; [apply Rmult_le_pos |]; lra).
    unfold Rdiv. rewrite Rmult_0_l. lra.
  - rewrite step_next_vcd, Hzero.
    apply py_max_le; lra.
Qed.

End StepBounds.

(** With no viable cell the dead cells and the total stay, and the
    viability of the next row is 0. *)
Lemma step_extinct_cells self T p o prev :
  st_vcd prev = 0 ->
  st_dead_cells (euler_step self T p o prev) = st_dead_cells prev
  /\ st_tcd (euler_step self T p o prev) = st_dead_cells prev
  /\ st_viability (euler_step self T p o prev) = 0.
Proof.
  intros Hv.
  destruct (step_extinct self T p o prev Hv) as (Hv' & _ & _).
  assert (Hd : st_dead_cells (euler_step self T p o prev) = st_dead_cells prev).
  { rewrite (step_dead_cells self T p o prev), Hv. ring. }
  assert (Ht : st_tcd (euler_step self T p o prev) = st_dead_cells prev).
  { rewrite (step_tcd self T p o prev), Hv', Hd. ring. }
  split; [exact Hd |]. split; [exact Ht |].
  assert (Hy : st_viability (euler_step self T p o prev)
               = if Rlt_dec 0 (st_tcd (euler_step self T p o prev))
                 then st_vcd (euler_step self T p o prev)
                      / st_tcd (euler_step self T p o prev) * 100
                 else 0) by reflexivity.
  rewrite Hy, Hv'.
  destruct (Rlt_dec 0 (st_tcd (euler_step self T p o prev))); [| reflexivity].
  unfold Rdiv. ring.
Qed.

(** ** More invariants of the trajectory *)

Section TrajectoryBounds.

Variable self : CHOFermentationSimulator.
Variables initial_glucose initial_vcd : R.
Variables temperature ph_constant oxygen_saturation : R.

Let state := euler_state self initial_glucose initial_vcd temperature
                         ph_constant oxygen_saturation.

Lemma state_S i :
  state (S i)
  = euler_step self temperature ph_constant oxygen_saturation (state i).
Proof using Type. reflexivity. Qed.

(** Extinction is final. *)
Lemma state_extinct_forever i j :
  (i <= j)%nat -> st_vcd (state i) = 0 ->
  st_vcd (state j) = 0
  /\ st_dead_cells (state j) = st_dead_cells (state i)
  /\ st_tcd (state j) = st_tcd (state i)
  /\ st_antibody_titer (state j) = st_antibody_titer (state i)
  /\ (0 <= st_glucose (state i) -> st_glucose (state j) = st_glucose (state i))
  /\ ((i < j)%nat -> st_viability (state j) = 0).
Proof using Type.
  intros Hij Hv. induction Hij as [| j Hij (IHv & IHd & IHt & IHa & IHg & IHy)].
  - repeat split; try reflexivity; try assumption. intros Hlt. lia.
  - rewrite state_S.
    destruct (step_extinct self temperature ph_constant oxygen_saturation
                (state j) IHv) as (Hv' & Ha' & Hg').
    destruct (step_extinct_cells self temperature ph_constant
                oxygen_saturation (state j) IHv) as (Hd' & Ht' & Hy').
    rewrite Hv', Hd', Ht', Ha', Hy', IHd, IHa.
    pose proof (state_tcd self initial_glucose initial_vcd temperature
                  ph_constant oxygen_saturation i) as Hid.
    fold state in Hid. rewrite Hid, Hv.
    repeat split; try reflexivity; try ring.
    intros Hg. rewrite Hg'; [apply IHg, Hg | rewrite (IHg Hg); exact Hg].
Qed.

Hypothesis Hvalid : valid_config self.
Hypothesis Hvcd : 0 <= initial_vcd.

Lemma state_vcd_pos i : 0 <= st_vcd (state i).
Proof using Hvcd. apply state_vcd_nonneg, Hvcd. Qed.


Hypothesis Hmaintenance : 0 <= maintenance_coefficient self.

Lemma state_glucose_mono i j :
  0 <= initial_glucose -> (i <= j)%nat ->
  st_glucose (state j) <= st_glucose (state i).
Proof using Hvalid Hvcd Hmaintenance.
  intros Hig. induction 1 as [| j _ IH]; [lra |].
  rewrite state_S.
  pose proof (step_glucose_mono self temperature ph_constant oxygen_saturation
                (state j) Hvalid (state_vcd_pos j) Hmaintenance
                (state_glucose_nonneg self initial_glucose initial_vcd
                   temperature ph_constant oxygen_saturation j Hig)).
  lra.
Qed.

Lemma state_starved i j :
  (i <= j)%nat -> st_glucose (state i) = 0 -> st_glucose (state j) = 0.
Proof using Hvalid Hvcd Hmaintenance.
  intros Hij Hg. induction Hij as [| j _ IH]; [exact Hg |].
  rewrite state_S.
  apply (step_starved self temperature ph_constant oxygen_saturation
           (state j) Hvalid (state_vcd_pos j) Hmaintenance IH).
Qed.

Lemma state_starved_decline i j k :
  (i <= j)%nat -> (j <= k)%nat -> st_glucose (state i) = 0 ->
  st_vcd (state k) <= st_vcd (state j).
Proof using Hvalid Hvcd Hmaintenance.
  intros Hij Hjk Hg. induction Hjk as [| k Hjk IH]; [lra |].
  rewrite state_S.
  assert (Hgk : st_glucose (state k) = 0)
    by (apply (state_starved i); [lia | exact Hg]).
  destruct (step_starved self temperature ph_constant oxygen_saturation
              (state k) Hvalid (state_vcd_pos k) Hmaintenance Hgk) as [_ Hle].
  lra.
Qed.

End TrajectoryBounds.

(** ** More about the arrays of a run *)

(** Glucose is never replenished: with a maintenance coefficient that is
    not negative, it never rises from one row to a later one. *)
Theorem glucose_monotone (self : CHOFermentationSimulator)
    (initial_glucose initial_vcd temperature ph_constant oxygen_saturation : R) :
  valid_config self -> 0 <= maintenance_coefficient self ->
  0 <= initial_glucose -> 0 <= initial_vcd ->
  exists data,
    simulate_data self initial_glucose initial_vcd temperature ph_constant
                  oxygen_saturation = Some data
    /\ forall i j, (i <= j < length (time_points self))%nat ->
         idx (glucose data) j <= idx (glucose data) i.
Proof.
  intros Hvalid Hm Hig Hiv.
  destruct (valid_simulate_data self initial_glucose initial_vcd temperature
              ph_constant oxygen_saturation Hvalid) as [data Hsim].
  exists data. split; [exact Hsim |].
  intros i j [Hij Hj]. read_row Hsim i. read_row Hsim j.
  rewrite Hglucose, Hglucose0. apply state_glucose_mono; assumption.
Qed.

Lemma glucose_monotone_witness :
  exists data,
    simulate_data (configured 2 1) 25 (1 / 2) 37 (72 / 10) 50 = Some data
    /\ forall i j, (i <= j < length (time_points (configured 2 1)))%nat ->
         idx (glucose data) j <= idx (glucose data) i.
Proof.
  apply (glucose_monotone (configured 2 1) 25 (1 / 2) 37 (72 / 10) 50).
  - apply configured_2_1_valid.
  - simpl. lra.
  - lra.
  - lra.
Defined.



(** Once glucose is exhausted it stays exhausted, and from then on the
    viable cells only decline. *)
Theorem starvation_is_final (self : CHOFermentationSimulator)
    (initial_glucose initial_vcd temperature ph_constant oxygen_saturation : R) :
  valid_config self -> 0 <= maintenance_coefficient self ->
  0 <= initial_vcd ->
  exists data,
    simulate_data self initial_glucose initial_vcd temperature ph_constant
                  oxygen_saturation = Some data
    /\ forall i j k, (i <= j <= k)%nat -> (k < length (time_points self))%nat ->
         idx (glucose data) i = 0 ->
         idx (glucose data) j = 0 /\ idx (vcd data) k <= idx (vcd data) j.
Proof.
  intros Hvalid Hm Hiv.
  destruct (valid_simulate_data self initial_glucose initial_vcd temperature
              ph_constant oxygen_saturation Hvalid) as [data Hsim].
  exists data. split; [exact Hsim |].
  intros i j k [Hij Hjk] Hk. read_row Hsim i. read_row Hsim j. read_row Hsim k.
  rewrite Hglucose, Hglucose0, Hvcd0, Hvcd1. intros Hzero. split.
  - apply (state_starved self initial_glucose initial_vcd temperature
             ph_constant oxygen_saturation Hvalid Hiv Hm i j Hij Hzero).
  - apply (state_starved_decline self initial_glucose initial_vcd temperature
             ph_constant oxygen_saturation Hvalid Hiv Hm i j k Hij Hjk Hzero).
Qed.

Lemma starvation_is_final_witness :
  exists data,
    simulate_data (configured 2 1) 0 (1 / 2) 37 (72 / 10) 50 = Some data
    /\ forall i j k, (i <= j <= k)%nat ->
         (k < length (time_points (configured 2 1)))%nat ->
         idx (glucose data) i = 0 ->
         idx (glucose data) j = 0 /\ idx (vcd data) k <= idx (vcd data) j.
Proof.
  apply (starvation_is_final (configured 2 1) 0 (1 / 2) 37 (72 / 10) 50).
  - apply configured_2_1_valid.
  - simpl. lra.
  - lra.
Defined.

(** Extinction is final.  For a run within the interface whose death
    rates are finite (and a maintenance coefficient that is not
    negative): from a row without viable cells on, the VCD stays 0, dead
    cells, total cell density, titer and glucose keep their values, and
    the viability of every later row is 0. *)
Theorem extinction_is_final (self : CHOFermentationSimulator)
    (initial_glucose initial_vcd temperature ph_constant oxygen_saturation : R) :
  valid_config self -> 0 <= maintenance_coefficient self ->
  0 <= initial_glucose -> 0 <= initial_vcd ->
  finite_death_rates self initial_glucose temperature ph_constant
                     oxygen_saturation ->
  exists data,
    simulate_data self initial_glucose initial_vcd temperature ph_constant
                  oxygen_saturation = Some data
    /\ forall i j, (i <= j < length (time_points self))%nat ->
         idx (vcd data) i = 0 ->
         idx (vcd data) j = 0
         /\ idx (dead_cells data) j = idx (dead_cells data) i
         /\ idx (tcd data) j = idx (tcd data) i
         /\ idx (antibody_titer data) j = idx (antibody_titer data) i
         /\ idx (glucose data) j = idx (glucose data) i
         /\ ((i < j)%nat -> idx (viability data) j = 0).
Proof.
  intros Hvalid _ Hig _ _.
  destruct (valid_simulate_data self initial_glucose initial_vcd temperature
              ph_constant oxygen_saturation Hvalid) as [data Hsim].
  exists data. split; [exact Hsim |].
  intros i j [Hij Hj] Hzero. read_row Hsim i. read_row Hsim j.
  rewrite Hvcd in Hzero.
  destruct (state_extinct_forever self initial_glucose initial_vcd temperature
              ph_constant oxygen_saturation i j Hij Hzero)
    as (Hv' & Hd' & Ht' & Ha' & Hg' & Hy').
  rewrite Hglucose, Htcd, Hdead, Htiter.
  rewrite Hglucose0, Hvcd0, Htcd0, Hdead0, Hviab0, Htiter0.
  repeat split; try assumption.
  apply Hg', state_glucose_nonneg, Hig.
Qed.

Lemma extinction_is_final_witness :
  exists data,
    simulate_data (configured 2 1) 25 0 37 (72 / 10) 50 = Some data
    /\ forall i j, (i <= j < length (time_points (configured 2 1)))%nat ->
         idx (vcd data) i = 0 ->
         idx (vcd data) j = 0
         /\ idx (dead_cells data) j = idx (dead_cells data) i
         /\ idx (tcd data) j = idx (tcd data) i
         /\ idx (antibody_titer data) j = idx (antibody_titer data) i
         /\ idx (glucose data) j = idx (glucose data) i
         /\ ((i < j)%nat -> idx (viability data) j = 0).
Proof.
  apply (extinction_is_final (configured 2 1) 25 0 37 (72 / 10) 50).
  - apply configured_2_1_valid.
  - simpl; lra.
  - lra.
  - lra.
  - apply (finite_death_rates_ends (configured 2 1) 25 37 (72 / 10) 50);
      unfold finite_death_rate, stress_exponent; simpl optimal; simpl sigma;
      lra.
Defined.

(** ** Rounding to two places keeps the order *)

Lemma rint_spec (y : R) :
  (np.rint y = Zfloor y /\ y - IZR (Zfloor y) <= 1 / 2)
  \/ (np.rint y = (Zfloor y + 1)%Z /\ 1 / 2 <= y - IZR (Zfloor y)).
Proof.
  unfold np.rint.
  destruct (Rlt_dec (y - IZR (Zfloor y)) (1 / 2)) as [Hlo | Hlo];
    [left; split; [reflexivity | lra] |].
  destruct (Rlt_dec (1 / 2) (y - IZR (Zfloor y))) as [Hhi | Hhi];
    [right; split; [reflexivity | lra] |].
  destruct (Z.even (Zfloor y)); [left | right]; split; try reflexivity; lra.
Qed.

Lemma rint_monotone (x y : R) : x <= y -> (np.rint x <= np.rint y)%Z.
Proof.
  intros Hxy.
  pose proof (Zfloor_le x y Hxy) as Hfloor.
  destruct (Z.eq_dec (Zfloor x) (Zfloor y)) as [Heq | Hne].
  - unfold np.rint. rewrite Heq.
    destruct (Rlt_dec (x - IZR (Zfloor y)) (1 / 2));
      destruct (Rlt_dec (1 / 2) (x - IZR (Zfloor y)));
      destruct (Rlt_dec (y - IZR (Zfloor y)) (1 / 2));
      destruct (Rlt_dec (1 / 2) (y - IZR (Zfloor y)));
      destruct (Z.even (Zfloor y)); try lia; lra.
  - destruct (rint_spec x) as [[-> _] | [-> _]];
      destruct (rint_spec y) as [[-> _] | [-> _]]; lia.
Qed.

(** Rounding to two places keeps the order. *)
Lemma round_monotone (x y : R) : x <= y -> np.round x 2 <= np.round y 2.
Proof.
  intros Hxy. unfold np.round.
  assert (Hz : (np.rint (x * 10 ^ 2) <= np.rint (y * 10 ^ 2))%Z)
    by (apply rint_monotone; lra).
  apply IZR_le in Hz. lra.
Qed.

Lemma round_0 : np.round 0 2 = 0.
Proof.
  replace 0 with (IZR 0 / 100) at 1 by lra. rewrite round_two_places. lra.
Qed.

Lemma round_100 : np.round 100 2 = 100.
Proof.
  replace 100 with (IZR 10000 / 100) at 1 by lra. rewrite round_two_places. lra.
Qed.

(** ** The returned table after rounding *)

(** The cells of row [i] of the returned table, as roundings of the
    exact state. *)
Lemma simulate_cells self ig iv T p o :
  valid_config self ->
  exists df,
    simulate self ig iv T p o = Some df
    /\ forall i, (i < length (time_points self))%nat ->
         let st := euler_state self ig iv T p o i in
         idx (Zeit df) i = np.round (INR i * time_step self) 2
         /\ idx (Glukose df) i = np.round (st_glucose st) 2
         /\ idx (VCD df) i = np.round (st_vcd st) 2
         /\ idx (TCD df) i = np.round (st_tcd st) 2
         /\ idx (Viabilitaet df) i = np.round (st_viability st) 2
         /\ idx (Antikoerper_Titer df) i = np.round (st_antibody_titer st) 2.
Proof.
  intros Hvalid.
  destruct (valid_simulate_data self ig iv T p o Hvalid) as [data Hsim].
  eexists. split; [apply simulate_frame, Hsim |].
  intros i Hi.
  destruct (simulate_data_rows _ _ _ _ _ _ _ Hsim)
    as [(Hg & Hv & Ht & Hd & Hy & Ha) _].
  read_row Hsim i.
  cbn [Zeit Glukose VCD TCD Viabilitaet Antikoerper_Titer]. cbv zeta.
  rewrite !idx_round_array by lia.
  rewrite (valid_time_point self i Hvalid Hi).
  rewrite Hglucose, Hvcd, Htcd, Hviab, Htiter. tauto.
Qed.



(** ** Reductions of a series *)

Lemma idx_In (s : list R) (i : nat) : (i < length s)%nat -> In (idx s i) s.
Proof.
  intros Hi. unfold idx.
  destruct (s !! i) as [x |] eqn:Hx.
  - simpl. apply list_elem_of_In. apply list_elem_of_lookup. eauto.
  - apply lookup_ge_None in Hx. lia.
Qed.

Lemma In_idx (s : list R) (x : R) :
  In x s -> exists i, (i < length s)%nat /\ idx s i = x.
Proof.
  intros Hin. apply list_elem_of_In, list_elem_of_lookup in Hin.
  destruct Hin as [i Hi]. exists i. split.
  - apply lookup_lt_Some in Hi. exact Hi.
  - unfold idx. rewrite Hi. reflexivity.
Qed.

Lemma foldl_Rmax_upper (s : list R) (x : R) :
  x <= foldl Rmax x s /\ forall y, In y s -> y <= foldl Rmax x s.
Proof.
  revert x. induction s as [| a s IH]; intros x; simpl.
  - split; [lra | tauto].
  - destruct (IH (Rmax x a)) as [Hx Hs].
    pose proof (Rmax_l x a). pose proof (Rmax_r x a).
    split; [lra |]. intros y [<- | Hy]; [lra | apply Hs, Hy].
Qed.

Lemma foldl_Rmax_In (s : list R) (x : R) : In (foldl Rmax x s) (x :: s).
Proof.
  revert x. induction s as [| a s IH]; intros x; simpl.
  - tauto.
  - destruct (IH (Rmax x a)) as [Heq | Hin]; [| tauto].
    rewrite <- Heq. unfold Rmax. destruct (Rle_dec x a); tauto.
Qed.

Lemma foldl_Rmin_lower (s : list R) (x : R) :
  foldl Rmin x s <= x /\ forall y, In y s -> foldl Rmin x s <= y.
Proof.
  revert x. induction s as [| a s IH]; intros x; simpl.
  - split; [lra | tauto].
  - destruct (IH (Rmin x a)) as [Hx Hs].
    pose proof (Rmin_l x a). pose proof (Rmin_r x a).
    split; [lra |]. intros y [<- | Hy]; [lra | apply Hs, Hy].
Qed.

Lemma foldl_Rmin_In (s : list R) (x : R) : In (foldl Rmin x s) (x :: s).
Proof.
  revert x. induction s as [| a s IH]; intros x; simpl.
  - tauto.
  - destruct (IH (Rmin x a)) as [Heq | Hin]; [| tauto].
    rewrite <- Heq. unfold Rmin. destruct (Rle_dec x a); tauto.
Qed.

Lemma foldl_Rplus (s : list R) (x : R) : foldl Rplus x s = x + pd.sum s.
Proof.
  unfold pd.sum. revert x. induction s as [| a s IH]; intros x; simpl.
  - lra.
  - rewrite IH, (IH (0 + a)). lra.
Qed.

Lemma sum_cons (a : R) (s : list R) : pd.sum (a :: s) = a + pd.sum s.
Proof. unfold pd.sum at 1. simpl. rewrite foldl_Rplus. lra. Qed.

(** A sum lies between the length times a lower bound and the length
    times an upper bound of the elements. *)
Lemma sum_bounds (s : list R) (lo hi : R) :
  (forall y, In y s -> lo <= y <= hi) ->
  INR (length s) * lo <= pd.sum s <= INR (length s) * hi.
Proof.
  induction s as [| a s IH]; intros Hb.
  - unfold pd.sum. simpl. lra.
  - rewrite sum_cons. cbn [length]. rewrite S_INR.
    destruct IH as [IHlo IHhi]; [intros y Hy; apply Hb; right; exact Hy |].
    destruct (Hb a) as [Hlo Hhi]; [left; reflexivity |]. lra.
Qed.

Lemma mean_bounds (s : list R) (lo hi avg : R) :
  pd.mean s = Some avg ->
  (forall y, In y s -> lo <= y <= hi) ->
  lo <= avg <= hi.
Proof.
  intros Hmean Hb. destruct s as [| a s]; [discriminate |].
  injection Hmean as <-.
  pose proof (sum_bounds (a :: s) lo hi Hb) as [Hlo Hhi].
  assert (Hn : 0 < INR (length (a :: s))) by (apply lt_0_INR; simpl; lia).
  split.
  - apply Rmult_le_reg_r with (INR (length (a :: s))); [exact Hn |].
    unfold Rdiv. rewrite Rmult_assoc, Rinv_l; lra.
  - apply Rmult_le_reg_r with (INR (length (a :: s))); [exact Hn |].
    unfold Rdiv. rewrite Rmult_assoc, Rinv_l; lra.
Qed.

Lemma max_spec (s : list R) (m : R) :
  pd.max s = Some m -> In m s /\ forall y, In y s -> y <= m.
Proof.
  destruct s as [| a s]; [discriminate |]. intros [= <-].
  split; [apply foldl_Rmax_In |].
  destruct (foldl_Rmax_upper s a) as [Ha Hs].
  intros y [<- | Hy]; [exact Ha | apply Hs, Hy].
Qed.

Lemma min_spec (s : list R) (m : R) :
  pd.min s = Some m -> In m s /\ forall y, In y s -> m <= y.
Proof.
  destruct s as [| a s]; [discriminate |]. intros [= <-].
  split; [apply foldl_Rmin_In |].
  destruct (foldl_Rmin_lower s a) as [Ha Hs].
  intros y [<- | Hy]; [exact Ha | apply Hs, Hy].
Qed.

Lemma iloc_last_idx (s : list R) (x : R) :
  pd.iloc_last s = Some x -> idx s (length s - 1) = x.
Proof.
  unfold pd.iloc_last, idx. rewrite last_lookup.
  replace (Init.Nat.pred (length s)) with (length s - 1)%nat by lia.
  intros ->. reflexivity.
Qed.

(** ** The key performance indicators *)

(** On a table with rows every reduction has a value. *)
Lemma calculate_kpis_some (n : nat) (df : DataFrame) :
  frame_rows n df -> (0 < n)%nat ->
  exists k,
    calculate_kpis df = Some k
    /\ pd.iloc_last (Antikoerper_Titer df) = Some (final_titer k)
    /\ pd.max (VCD df) = Some (max_vcd k)
    /\ pd.mean (Viabilitaet df) = Some (avg_viability k)
    /\ pd.min (Viabilitaet df) = Some (min_viability k).
Proof.
  intros (_ & _ & Hv & _ & Hy & Ha & _) Hn. unfold calculate_kpis.
  destruct (pd.iloc_last (Antikoerper_Titer df)) as [final |] eqn:Hlast.
  2:{ unfold pd.iloc_last in Hlast. apply last_None in Hlast.
      rewrite Hlast in Ha. simpl in Ha. lia. }
  destruct (pd.max (VCD df)) as [vmax |] eqn:Hmax.
  2:{ destruct (VCD df); [simpl in Hv; lia | discriminate]. }
  destruct (pd.mean (Viabilitaet df)) as [avg |] eqn:Hmean.
  2:{ destruct (Viabilitaet df); [simpl in Hy; lia | discriminate]. }
  destruct (pd.min (Viabilitaet df)) as [vmin |] eqn:Hmin.
  2:{ destruct (Viabilitaet df); [simpl in Hy; lia | discriminate]. }
  eexists. split; [reflexivity |]. simpl. tauto.
Qed.

(** The average lies between the minimum and every upper bound. *)
Lemma mean_between (s : list R) (avg vmin hi : R) :
  pd.mean s = Some avg -> pd.min s = Some vmin ->
  (forall y, In y s -> y <= hi) ->
  vmin <= avg <= hi.
Proof.
  intros Hmean Hmin Hhi.
  destruct (min_spec _ _ Hmin) as [_ Hlb].
  apply (mean_bounds s vmin hi avg Hmean).
  intros y Hin. split; [apply Hlb | apply Hhi]; exact Hin.
Qed.



(** A valid configuration has at least two sample times. *)
Lemma valid_rows_ge_2 self :
  valid_config self -> (2 <= length (time_points self))%nat.
Proof.
  intros Hvalid. rewrite (valid_rows self Hvalid).
  pose proof (vc_time_step _ Hvalid) as Hdt.
  pose proof (vc_duration _ Hvalid) as Hd.
  assert (Hq : IZR 1 <= duration self / time_step self).
  { apply Rmult_le_reg_r with (time_step self); [exact Hdt |].
    unfold Rdiv. rewrite Rmult_assoc, Rinv_l; lra. }
  apply Zceil_le in Hq. rewrite Zceil_IZR in Hq. lia.
Qed.

(** The indicators of a run: for a valid configuration and an initial
    VCD that is not negative, [calculate_kpis] returns on the table of
    [simulate]; the final titer is not negative and no row has a higher
    titer; the maximal VCD is at least the rounded initial VCD; and
    [0 <= min_viability <= avg_viability <= 100]. *)
Theorem kpis_of_run (self : CHOFermentationSimulator)
    (initial_glucose initial_vcd temperature ph_constant oxygen_saturation : R) :
  valid_config self -> 0 <= initial_vcd ->
  exists df k,
    simulate self initial_glucose initial_vcd temperature ph_constant
             oxygen_saturation = Some df
    /\ calculate_kpis df = Some k
    /\ 0 <= final_titer k
    /\ (forall i, (i < length (time_points self))%nat ->
          idx (Antikoerper_Titer df) i <= final_titer k)
    /\ np.round initial_vcd 2 <= max_vcd k
    /\ 0 <= min_viability k <= avg_viability k
    /\ avg_viability k <= 100.
Proof.
  intros Hvalid Hiv.
  destruct (simulate_cells self initial_glucose initial_vcd temperature
              ph_constant oxygen_saturation Hvalid) as (df & Hdf & Hcells).
  pose proof (simulate_frame_rows _ _ _ _ _ _ _ Hdf) as Hrows.
  pose proof (valid_rows_ge_2 self Hvalid) as Hn.
  destruct (calculate_kpis_some _ df Hrows)
    as (k & Hk & Hlast & Hmax & Hmean & Hmin); [lia |].
  exists df, k. split; [exact Hdf |]. split; [exact Hk |].
  destruct Hrows as (_ & _ & Hv & _ & Hy & Ha & _).
  set (state := euler_state self initial_glucose initial_vcd temperature
                            ph_constant oxygen_saturation) in *.
  assert (Htiter : forall i j, (i <= j)%nat ->
            st_antibody_titer (state i) <= st_antibody_titer (state j))
    by (intros i j; apply state_antibody_titer_mono, Hvalid).
  assert (Hviab : forall y, In y (Viabilitaet df) -> 0 <= y <= 100).
  { intros y Hin. destruct (In_idx _ _ Hin) as (i & Hi & <-).
    destruct (Hcells i) as (_ & _ & _ & _ & Hyi & _); [lia |].
    cbv zeta in Hyi. rewrite Hyi.
    pose proof (state_viability_range self initial_glucose initial_vcd
                  temperature ph_constant oxygen_saturation Hvalid Hiv i)
      as [Hlo Hhi].
    apply round_monotone in Hlo, Hhi.
    rewrite round_0 in Hlo. rewrite round_100 in Hhi. split; assumption. }
  apply iloc_last_idx in Hlast. rewrite Ha in Hlast.
  destruct (Hcells (length (time_points self) - 1)%nat)
    as (_ & _ & _ & _ & _ & Hfinal); [lia |].
  cbv zeta in Hfinal. rewrite Hlast in Hfinal.
  destruct (max_spec _ _ Hmax) as [_ Hmax_ub].
  destruct (min_spec _ _ Hmin) as [Hmin_in _].
  split; [| split; [| split; [| split]]].
  - rewrite Hfinal, <- round_0. apply round_monotone.
    apply (Htiter 0%nat). lia.
  - intros i Hi. destruct (Hcells i) as (_ & _ & _ & _ & _ & Hai); [exact Hi |].
    cbv zeta in Hai. rewrite Hai, Hfinal. apply round_monotone, Htiter. lia.
  - destruct (Hcells 0%nat) as (_ & _ & Hv0 & _); [lia |].
    cbv zeta in Hv0. simpl in Hv0. rewrite <- Hv0.
    apply Hmax_ub, idx_In. lia.
  - split; [apply Hviab, Hmin_in |].
    apply (mean_between _ _ _ 100 Hmean Hmin). intros y Hin. apply Hviab, Hin.
  - apply (mean_between _ _ _ 100 Hmean Hmin). intros y Hin. apply Hviab, Hin.
Qed.

Lemma kpis_of_run_witness :
  exists df k,
    simulate (configured 2 1) 25 (1 / 2) 37 (72 / 10) 50 = Some df
    /\ calculate_kpis df = Some k
    /\ 0 <= final_titer k
    /\ (forall i, (i < length (time_points (configured 2 1)))%nat ->
          idx (Antikoerper_Titer df) i <= final_titer k)
    /\ np.round (1 / 2) 2 <= max_vcd k
    /\ 0 <= min_viability k <= avg_viability k
    /\ avg_viability k <= 100.
Proof.
  apply (kpis_of_run (configured 2 1) 25 (1 / 2) 37 (72 / 10) 50).
  - apply configured_2_1_valid.
  - lra.
Defined.

(** The indicators of a run started without cells: no titer, no VCD, a
    minimal viability of 0, and an average viability of 100 divided by
    the number of rows, row 0 being the only row with a viability. *)
Theorem kpis_of_extinct_run (self : CHOFermentationSimulator)
    (initial_glucose temperature ph_constant oxygen_saturation : R) :
  valid_config self ->
  exists df k,
    simulate self initial_glucose 0 temperature ph_constant
             oxygen_saturation = Some df
    /\ calculate_kpis df = Some k
    /\ final_titer k = 0
    /\ max_vcd k = 0
    /\ min_viability k = 0
    /\ avg_viability k = 100 / INR (length (time_points self)).
Proof.
  intros Hvalid.
  destruct (simulate_cells self initial_glucose 0 temperature
              ph_constant oxygen_saturation Hvalid) as (df & Hdf & Hcells).
  pose proof (simulate_frame_rows _ _ _ _ _ _ _ Hdf) as Hrows.
  pose proof (valid_rows_ge_2 self Hvalid) as Hn.
  destruct (calculate_kpis_some _ df Hrows)
    as (k & Hk & Hlast & Hmax & Hmean & Hmin); [lia |].
  exists df, k. split; [exact Hdf |]. split; [exact Hk |].
  destruct Hrows as (_ & _ & Hv & _ & Hy & Ha & _).
  set (state := euler_state self initial_glucose 0 temperature
                            ph_constant oxygen_saturation) in *.
  assert (Hstate : forall j, st_vcd (state j) = 0
                             /\ st_antibody_titer (state j) = 0
                             /\ ((0 < j)%nat -> st_viability (state j) = 0)).
  { intros j.
    destruct (state_extinct_forever self initial_glucose 0 temperature
                ph_constant oxygen_saturation 0 j)
      as (Hvj & _ & _ & Haj & _ & Hyj); [lia | reflexivity |].
    fold state in Hvj, Haj, Hyj. simpl in Haj. auto. }
  assert (Hvcd : forall y, In y (VCD df) -> y = 0).
  { intros y Hin. destruct (In_idx _ _ Hin) as (i & Hi & <-).
    destruct (Hcells i) as (_ & _ & Hvi & _); [lia |].
    cbv zeta in Hvi. rewrite Hvi, (proj1 (Hstate i)). apply round_0. }
  assert (Hrow0 : idx (Viabilitaet df) 0 = 100).
  { destruct (Hcells 0%nat) as (_ & _ & _ & _ & Hy0 & _); [lia |].
    cbv zeta in Hy0. rewrite Hy0. simpl. apply round_100. }
  assert (Hlater : forall i, (0 < i < length (time_points self))%nat ->
                             idx (Viabilitaet df) i = 0).
  { intros i Hi. destruct (Hcells i) as (_ & _ & _ & _ & Hyi & _); [lia |].
    cbv zeta in Hyi. rewrite Hyi.
    destruct (Hstate i) as (_ & _ & Hzero). rewrite Hzero by lia.
    apply round_0. }
  apply iloc_last_idx in Hlast. rewrite Ha in Hlast.
  destruct (Hcells (length (time_points self) - 1)%nat)
    as (_ & _ & _ & _ & _ & Hfinal); [lia |].
  cbv zeta in Hfinal. rewrite Hlast in Hfinal.
  destruct (max_spec _ _ Hmax) as [Hmax_in _].
  destruct (min_spec _ _ Hmin) as [Hmin_in Hmin_lb].
  split; [| split; [| split]].
  - rewrite Hfinal, (proj1 (proj2 (Hstate _))). apply round_0.
  - apply Hvcd, Hmax_in.
  - apply Rle_antisym.
    + rewrite <- (Hlater 1%nat) by lia. apply Hmin_lb, idx_In. lia.
    + destruct (In_idx _ _ Hmin_in) as (i & Hi & <-).
      destruct i as [| i]; [rewrite Hrow0; lra | rewrite Hlater by lia; lra].
  - destruct (Viabilitaet df) as [| a s] eqn:Hcol; [simpl in Hy; lia |].
    unfold idx in Hrow0; simpl in Hrow0. subst a.
    assert (Hzeros : forall y, In y s -> 0 <= y <= 0).
    { intros y Hin. destruct (In_idx _ _ Hin) as (i & Hi & <-).
      replace (idx s i) with (idx (100 :: s) (S i)) by reflexivity.
      rewrite Hlater; [lra |]. simpl in Hy. lia. }
    pose proof (sum_bounds s 0 0 Hzeros) as Hsum.
    assert (Hsum100 : pd.sum (100 :: s) = 100) by (rewrite sum_cons; lra).
    injection Hmean as <-. rewrite Hsum100, <- Hy. reflexivity.
Qed.

Lemma kpis_of_extinct_run_witness :
  exists df k,
    simulate (configured 2 1) 25 0 37 (72 / 10) 50 = Some df
    /\ calculate_kpis df = Some k
    /\ final_titer k = 0
    /\ max_vcd k = 0
    /\ min_viability k = 0
    /\ avg_viability k = 100 / INR (length (time_points (configured 2 1))).
Proof.
  apply (kpis_of_extinct_run (configured 2 1) 25 37 (72 / 10) 50).
  apply configured_2_1_valid.
Defined.

(** When the step is a whole number of hundredths, the time column is
    exact: row [i] holds [i * time_step], rounding changes nothing. *)
Theorem time_column_exact (self : CHOFermentationSimulator) (z : Z)
    (initial_glucose initial_vcd temperature ph_constant oxygen_saturation : R) :
  valid_config self -> time_step self = IZR z / 100 ->
  exists df,
    simulate self initial_glucose initial_vcd temperature ph_constant
             oxygen_saturation = Some df
    /\ forall i, (i < length (time_points self))%nat ->
         idx (Zeit df) i = INR i * time_step self.
Proof.
  intros Hvalid Hstep.
  destruct (simulate_cells self initial_glucose initial_vcd temperature
              ph_constant oxygen_saturation Hvalid) as (df & Hdf & Hcells).
  exists df. split; [exact Hdf |].
  intros i Hi. destruct (Hcells i Hi) as (Ht & _). rewrite Ht, Hstep.
  replace (INR i * (IZR z / 100)) with (IZR (Z.of_nat i * z) / 100)
    by (rewrite mult_IZR, <- INR_IZR_INZ; lra).
  apply round_two_places.
Qed.

Lemma time_column_exact_witness :
  exists df,
    simulate (configured 288 1) 25 (1 / 2) 37 (72 / 10) 50 = Some df
    /\ forall i, (i < length (time_points (configured 288 1)))%nat ->
         idx (Zeit df) i = INR i * time_step (configured 288 1).
Proof.
  apply (time_column_exact (configured 288 1) 100 25 (1 / 2) 37 (72 / 10) 50).
  - apply configured_valid; lra.
  - simpl. lra.
Defined.

(** ** The data table of the page: every sixth row *)

Lemma iloc_from_lookup (s : list R) (skip step j : nat) :
  (1 <= step)%nat ->
  pd.iloc_from skip step s !! j = s !! (skip + j * step)%nat.
Proof.
  intros Hstep. revert skip j.
  induction s as [| x s IH]; intros skip j; [reflexivity |].
  destruct skip as [| skip]; simpl.
  - destruct j as [| j]; [reflexivity |].
    simpl. rewrite IH.
    replace (step + j * step)%nat with (S (step - 1 + j * step)) by lia.
    reflexivity.
  - apply IH.
Qed.

Lemma iloc_from_length (s : list R) (skip step : nat) :
  (1 <= step)%nat ->
  length (pd.iloc_from skip step s)
  = ((length s + step - 1 - skip) / step)%nat.
Proof.
  intros Hstep. revert skip.
  induction s as [| x s IH]; intros skip; cbn [pd.iloc_from length].
  - symmetry. apply Nat.div_small. lia.
  - destruct skip as [| skip]; cbn [length].
    + rewrite IH.
      replace (length s + step - 1 - (step - 1))%nat with (length s) by lia.
      replace (S (length s) + step - 1 - 0)%nat
        with (length s + 1 * step)%nat by lia.
      rewrite Nat.div_add by lia. lia.
    + rewrite IH. f_equal. lia.
Qed.

Lemma idx_iloc_step (s : list R) (j : nat) :
  idx (pd.iloc_step 6 s) j = idx s (6 * j).
Proof.
  unfold idx, pd.iloc_step. rewrite iloc_from_lookup by lia.
  do 2 f_equal. lia.
Qed.

Lemma length_iloc_step (s : list R) :
  length (pd.iloc_step 6 s) = ((length s + 5) / 6)%nat.
Proof.
  unfold pd.iloc_step. rewrite iloc_from_length by lia. f_equal. lia.
Qed.

(** The table shown on the page holds the rows 0, 6, 12, ... of the
    trajectory and no others: for a trajectory of [n] rows it has
    [ceil(n / 6)] rows, and its row [j] is row [6 * j] of the trajectory
    in every column. *)
Theorem display_data_rows (n : nat) (df : DataFrame) :
  frame_rows n df ->
  frame_rows ((n + 5) / 6) (display_data df)
  /\ forall j, (j < (n + 5) / 6)%nat ->
       (6 * j < n)%nat
       /\ frame_row (display_data df) j = frame_row df (6 * j)
       /\ idx (Temperatur (display_data df)) j = idx (Temperatur df) (6 * j)
       /\ idx (pH (display_data df)) j = idx (pH df) (6 * j)
       /\ idx (Sauerstoff (display_data df)) j = idx (Sauerstoff df) (6 * j).
Proof.
  intros (Hz & Hg & Hv & Ht & Hy & Ha & Hte & Hp & Ho). split.
  - unfold frame_rows, display_data; simpl.
    rewrite !length_iloc_step, Hz, Hg, Hv, Ht, Hy, Ha, Hte, Hp, Ho. tauto.
  - intros j Hj. split.
    + assert (Hdiv : (6 * ((n + 5) / 6) <= n + 5)%nat)
        by (apply Nat.Div0.mul_div_le).
      lia.
    + unfold frame_row, display_data; simpl.
      rewrite !idx_iloc_step. tauto.
Qed.

Lemma display_data_rows_witness :
  frame_rows ((2 + 5) / 6) (display_data two_rows)
  /\ forall j, (j < (2 + 5) / 6)%nat ->
       (6 * j < 2)%nat
       /\ frame_row (display_data two_rows) j = frame_row two_rows (6 * j)
       /\ idx (Temperatur (display_data two_rows)) j
          = idx (Temperatur two_rows) (6 * j)
       /\ idx (pH (display_data two_rows)) j = idx (pH two_rows) (6 * j)
       /\ idx (Sauerstoff (display_data two_rows)) j
          = idx (Sauerstoff two_rows) (6 * j).
Proof.
  apply (display_data_rows 2 two_rows).
  unfold frame_rows. simpl. tauto.
Defined.

(** ** The grid of sample times *)

(** For a duration and a step that are whole numbers of hours, with
    [1 <= time_step <= duration <= 2^20], the constructor returns a
    simulator whose sample times start at 0, increase by one step from
    each to the next, and end at the first multiple of the step that
    reaches the duration: the last sample time is at least the duration
    and overshoots it by less than one step. *)
Theorem sample_grid (hours step : Z) :
  (1 <= step <= hours)%Z -> (hours <= 2 ^ 20)%Z ->
  exists self,
    __init__ (IZR hours) (IZR step) = Some self
    /\ let n := length (time_points self) in
       (2 <= n)%nat
       /\ idx (time_points self) 0 = 0
       /\ (forall i, (S i < n)%nat ->
             idx (time_points self) (S i)
             = idx (time_points self) i + IZR step)
       /\ IZR hours <= idx (time_points self) (n - 1) < IZR hours + IZR step.
Proof.
  intros [Hstep Hhours] _.
  assert (Hts : 0 < IZR step) by (apply IZR_lt; lia).
  assert (Hd : IZR step <= IZR hours) by (apply IZR_le; lia).
  pose proof (configured_valid (IZR hours) (IZR step) Hts Hd) as Hvalid.
  exists (configured (IZR hours) (IZR step)).
  split; [apply init_configured; lra |]. cbv zeta.
  pose proof (valid_rows_ge_2 _ Hvalid) as Hn.
  pose proof (configured_length (IZR hours) (IZR step) Hts Hd) as Hlen.
  split; [exact Hn |]. split; [| split].
  - rewrite (valid_time_point _ 0 Hvalid) by lia. simpl. lra.
  - intros i Hi. rewrite !(valid_time_point _ _ Hvalid) by lia.
    rewrite S_INR. cbn [time_step configured]. lra.
  - rewrite (valid_time_point _ _ Hvalid) by lia. cbn [time_step configured].
    rewrite Hlen.
    replace (Z.to_nat (Zceil (IZR hours / IZR step)) + 1 - 1)%nat
      with (Z.to_nat (Zceil (IZR hours / IZR step))) by lia.
    assert (Hq : 0 <= IZR hours / IZR step)
      by (apply Rmult_le_pos; [lra | left; apply Rinv_0_lt_compat, Hts]).
    pose proof (Zceil_nonneg _ Hq) as Hc.
    rewrite INR_IZR_INZ, Z2Nat.id by exact Hc.
    pose proof (Zceil_bound (IZR hours / IZR step)) as [Hlo Hhi].
    assert (Hmul : IZR hours / IZR step * IZR step = IZR hours)
      by (field; lra).
    split; nra.
Qed.

Lemma sample_grid_witness :
  exists self,
    __init__ (IZR 5) (IZR 2) = Some self
    /\ let n := length (time_points self) in
       (2 <= n)%nat
       /\ idx (time_points self) 0 = 0
       /\ (forall i, (S i < n)%nat ->
             idx (time_points self) (S i) = idx (time_points self) i + IZR 2)
       /\ IZR 5 <= idx (time_points self) (n - 1) < IZR 5 + IZR 2.
Proof. apply (sample_grid 5 2); lia. Defined.

(** * The loop in floating point: infinite death rates *)

(** Far from the optimum a response underflows to 0, its inverse and the
    death rate are [inf], and a step from a viable cell density of 0
    multiplies [inf] by 0.  The lemmas of this part are about the
    embedding [ieee], which has these values. *)

(** ** Special values in the loop *)

Lemma ieee_idx_insert_eq (a : list ieee.t) (i : nat) (x : ieee.t) :
  (i < length a)%nat -> ieee.idx (<[i:=x]> a) i = x.
Proof. intros Hi. unfold ieee.idx. by rewrite list_lookup_insert_eq. Qed.

Lemma ieee_idx_insert_ne (a : list ieee.t) (i j : nat) (x : ieee.t) :
  i <> j -> ieee.idx (<[i:=x]> a) j = ieee.idx a j.
Proof. intros Hij. unfold ieee.idx. by rewrite list_lookup_insert_ne. Qed.

Lemma ieee_idx_zeros n i : ieee.idx (ieee.zeros n) i = ieee.Fin 0.
Proof.
  unfold ieee.idx, ieee.zeros.
  destruct (replicate n (ieee.Fin 0) !! i) as [x |] eqn:Hx; [| reflexivity].
  apply lookup_replicate in Hx. simpl. tauto.
Qed.

Lemma by_sign_pos r a b c : 0 < r -> ieee.by_sign r a b c = a.
Proof.
  intros Hr. unfold ieee.by_sign.
  destruct (Rlt_dec 0 r); [reflexivity | contradiction].
Qed.

Lemma by_sign_zero a b c : ieee.by_sign 0 a b c = c.
Proof.
  unfold ieee.by_sign. destruct (Rlt_dec 0 0) as [H | _]; [lra |].
  destruct (Rlt_dec 0 0) as [H | _]; [lra | reflexivity].
Qed.

Lemma ieee_div_fin a b :
  b <> 0 -> ieee.div (ieee.Fin a) (ieee.Fin b) = ieee.Fin (a / b).
Proof.
  intros Hb. simpl. destruct (Req_dec_T b 0); [contradiction | reflexivity].
Qed.

Lemma ieee_exp_fin r :
  -746 <= r <= 710 -> ieee.exp (ieee.Fin r) = ieee.Fin (exp r).
Proof.
  intros [Hlo Hhi]. simpl.
  destruct (Rlt_dec r (-746)); [lra |].
  destruct (Rlt_dec 710 r); [lra | reflexivity].
Qed.

Lemma ieee_exp_underflow r : r < -746 -> ieee.exp (ieee.Fin r) = ieee.Fin 0.
Proof.
  intros Hr. simpl.
  destruct (Rlt_dec r (-746)); [reflexivity | contradiction].
Qed.

Lemma ieee_add_nan_r x : ieee.add x ieee.NaN = ieee.NaN.
Proof. destruct x; reflexivity. Qed.

(** A response is the real one as long as its exponent is above the
    underflow of [np.exp]. *)
Lemma ieee_stress_gaussian_fin d s :
  s <> 0 -> 1 / 2 * (d / s) ^ 2 <= 746 ->
  ieee.stress_gaussian (ieee.Fin d) s = ieee.Fin (stress_gaussian d s).
Proof.
  intros Hs Hd. unfold ieee.stress_gaussian, stress_gaussian.
  rewrite ieee_div_fin by assumption. cbn [ieee.mul].
  assert (H0 : 0 <= (d / s) ^ 2) by apply pow2_ge_0.
  replace (- (1 / 2) * (d / s * (d / s))) with (- (1 / 2) * (d / s) ^ 2) by ring.
  apply ieee_exp_fin. lra.
Qed.

(** Beyond it the response is 0. *)
Lemma ieee_stress_gaussian_underflow d s :
  s <> 0 -> 746 < 1 / 2 * (d / s) ^ 2 ->
  ieee.stress_gaussian (ieee.Fin d) s = ieee.Fin 0.
Proof.
  intros Hs Hd. unfold ieee.stress_gaussian.
  rewrite ieee_div_fin by assumption. cbn [ieee.mul].
  apply ieee_exp_underflow.
  replace (- (1 / 2) * (d / s * (d / s))) with (- (1 / 2) * (d / s) ^ 2) by ring.
  lra.
Qed.

(** At the optimal temperature, pH and oxygen and a glucose level of
    2000 the glucose response underflows: no activity, and an infinite
    death rate. *)
Lemma death_rate_at_glucose_2000 d ts :
  ieee.evaluate_environment (configured d ts) 37 (72 / 10) 50 (ieee.Fin 2000)
  = (ieee.Fin 0, ieee.PInf).
Proof.
  unfold ieee.evaluate_environment, ieee.prod.
  cbn [fmap list_fmap foldl fst snd optimal sigma configured ieee.sub ieee.opp ieee.add].
  rewrite !ieee_stress_gaussian_fin by lra.
  rewrite ieee_stress_gaussian_underflow by lra.
  assert (Hpos : forall x s, 0 < 1 / stress_gaussian x s).
  { intros x s. apply Rdiv_lt_0_compat; [lra | apply stress_gaussian_pos]. }
  rewrite !ieee_div_fin by (apply Rgt_not_eq, stress_gaussian_pos).
  cbn [ieee.mul ieee.div].
  destruct (Req_dec_T 0 0) as [_ | Hne]; [| contradiction].
  rewrite (by_sign_pos 1) by lra.
  rewrite by_sign_pos.
  - rewrite by_sign_pos by (simpl; lra).
    f_equal. f_equal. ring.
  - apply Rmult_lt_0_compat;
      [apply Rmult_lt_0_compat; [apply Rmult_lt_0_compat; [lra |] |] |];
      apply Hpos.
Qed.


Lemma ieee_loop_body_other self T p o data i j :
  j <> i ->
  let data' := ieee.loop_body self T p o data i in
  ieee.idx (ieee.glucose data') j = ieee.idx (ieee.glucose data) j
  /\ ieee.idx (ieee.vcd data') j = ieee.idx (ieee.vcd data) j
  /\ ieee.idx (ieee.tcd data') j = ieee.idx (ieee.tcd data) j
  /\ ieee.idx (ieee.dead_cells data') j = ieee.idx (ieee.dead_cells data) j
  /\ ieee.idx (ieee.viability data') j = ieee.idx (ieee.viability data) j
  /\ ieee.idx (ieee.antibody_titer data') j
     = ieee.idx (ieee.antibody_titer data) j.
Proof.
  intros Hji. unfold ieee.loop_body.
  destruct (ieee.evaluate_environment self T p o
              (ieee.idx (ieee.glucose data) (i - 1)))
    as [activity_effect death_rate_now].
  match goal with |- context [if ieee.ltb (ieee.Fin 0) (ieee.max0 ?x) then _ else _] =>
    destruct (ieee.ltb (ieee.Fin 0) (ieee.max0 x)) end;
    simpl; rewrite !ieee_idx_insert_ne by congruence; tauto.
Qed.

(** The run of three sample times, step by step. *)
Lemma ieee_simulate_data_3 self ig iv T p o :
  length (time_points self) = 3%nat ->
  ieee.simulate_data self ig iv T p o
  = Some (ieee.loop_body self T p o
            (ieee.loop_body self T p o (ieee.initial_data 3 ig iv) 1) 2).
Proof. intros Hn. unfold ieee.simulate_data. rewrite Hn. reflexivity. Qed.

(** The cells that one pass through the loop writes for the cell
    densities, as the code computes them. *)
Lemma ieee_loop_body_cells self T p o n data i :
  length (ieee.vcd data) = n -> length (ieee.tcd data) = n ->
  length (ieee.dead_cells data) = n -> (1 <= i < n)%nat ->
  let data' := ieee.loop_body self T p o data i in
  let dt := ieee.Fin (time_step self) in
  let prev_glucose := ieee.idx (ieee.glucose data) (i - 1) in
  let prev_vcd := ieee.idx (ieee.vcd data) (i - 1) in
  let env := ieee.evaluate_environment self T p o prev_glucose in
  let growth_rate :=
    if ieee.ltb (ieee.Fin 0) prev_vcd
    then ieee.mul (ieee.mul (ieee.Fin (max_growth_rate self))
                            (ieee.monod_kinetics prev_glucose
                               (substrate_affinity self)
                               (Some (inhibition_constant self))))
                  (fst env)
    else ieee.Fin 0 in
  let vcd_growth := ieee.mul (ieee.mul growth_rate prev_vcd) dt in
  let vcd_death := ieee.mul (ieee.mul (snd env) prev_vcd) dt in
  let vcd_current :=
    ieee.max0 (ieee.sub (ieee.add prev_vcd vcd_growth) vcd_death) in
  ieee.idx (ieee.vcd data') i = vcd_current
  /\ ieee.idx (ieee.dead_cells data') i
     = ieee.add (ieee.idx (ieee.dead_cells data) (i - 1)) vcd_death
  /\ ieee.idx (ieee.tcd data') i
     = ieee.add vcd_current (ieee.idx (ieee.dead_cells data') i).
Proof.
  intros Hv Ht Hd Hi. cbv zeta.
  assert (Hne : i <> (i - 1)%nat) by lia.
  unfold ieee.loop_body.
  destruct (ieee.evaluate_environment self T p o
              (ieee.idx (ieee.glucose data) (i - 1)))
    as [activity_effect death_rate_now].
  cbn [fst snd].
  match goal with |- context [if ieee.ltb (ieee.Fin 0) (ieee.max0 ?x) then _ else _] =>
    destruct (ieee.ltb (ieee.Fin 0) (ieee.max0 x)) end;
    simpl;
    rewrite ?ieee_idx_insert_eq, ?(ieee_idx_insert_ne _ i (i - 1)) by
      (rewrite ?length_insert; first [lia | assumption]);
    rewrite ?ieee_idx_insert_eq by (rewrite ?length_insert; lia);
    auto.
Qed.

Lemma ieee_initial_data_cells n ig iv :
  (0 < n)%nat ->
  let data := ieee.initial_data n ig iv in
  length (ieee.vcd data) = n /\ length (ieee.tcd data) = n
  /\ length (ieee.dead_cells data) = n
  /\ ieee.idx (ieee.glucose data) 0 = ieee.Fin ig
  /\ ieee.idx (ieee.vcd data) 0 = ieee.Fin iv
  /\ ieee.idx (ieee.dead_cells data) 0 = ieee.Fin 0.
Proof.
  intros Hn. unfold ieee.initial_data, ieee.zeros. simpl.
  rewrite !length_insert, !length_replicate.
  rewrite !ieee_idx_insert_eq by (rewrite length_replicate; lia).
  repeat split. apply ieee_idx_zeros.
Qed.

(** The first step of a run without cells at glucose 2000: the infinite
    death rate times no cells is not a number, and neither are the dead
    cells and the total cell density of row 1. *)
Lemma first_step_without_cells d ts n :
  (2 <= n)%nat ->
  let data := ieee.loop_body (configured d ts) 37 (72 / 10) 50
                             (ieee.initial_data n 2000 0) 1 in
  ieee.idx (ieee.vcd data) 1 = ieee.Fin 0
  /\ ieee.idx (ieee.dead_cells data) 0 = ieee.Fin 0
  /\ ieee.idx (ieee.dead_cells data) 1 = ieee.NaN
  /\ ieee.idx (ieee.tcd data) 1 = ieee.NaN.
Proof.
  intros Hn. cbv zeta.
  destruct (ieee_initial_data_cells n 2000 0) as (Hv & Ht & Hd & Hg0 & Hv0 & Hd0);
    [lia |].
  destruct (ieee_loop_body_cells (configured d ts) 37 (72 / 10) 50 n
              (ieee.initial_data n 2000 0) 1 Hv Ht Hd) as (Hvcd & Hdead & Htcd);
    [lia |].
  destruct (ieee_loop_body_other (configured d ts) 37 (72 / 10) 50
              (ieee.initial_data n 2000 0) 1 0) as (_ & _ & _ & Hdead0 & _);
    [lia |].
  cbv zeta in *. replace (1 - 1)%nat with 0%nat in * by lia.
  rewrite Hg0, Hv0, Hd0, death_rate_at_glucose_2000 in *.
  cbn [fst snd ieee.ltb ieee.mul ieee.add ieee.sub ieee.opp ieee.max0] in *.
  rewrite by_sign_zero in *.
  cbn [ieee.mul ieee.add] in *.
  unfold ieee.sub in *. cbn [ieee.opp] in *.
  rewrite ieee_add_nan_r in Hvcd, Htcd. rewrite Hdead in Htcd.
  rewrite ieee_add_nan_r in Htcd.
  cbn [ieee.max0 ieee.ltb] in *.
  auto.
Qed.

(** The run [simulate(2000, 0, 37, 7.2, 50)] over three sample times:
    the dead cells and the total cell density of row 1 are [nan]. *)
Lemma run_without_cells_at_glucose_2000 :
  exists data,
    ieee.simulate_data (configured 2 1) 2000 0 37 (72 / 10) 50 = Some data
    /\ (1 < length (time_points (configured 2 1)))%nat
    /\ ieee.idx (ieee.vcd data) 1 = ieee.Fin 0
    /\ ieee.idx (ieee.dead_cells data) 0 = ieee.Fin 0
    /\ ieee.idx (ieee.dead_cells data) 1 = ieee.NaN
    /\ ieee.idx (ieee.tcd data) 1 = ieee.NaN.
Proof.
  pose proof configured_2_1_rows as Hn.
  rewrite (ieee_simulate_data_3 _ _ _ _ _ _ Hn).
  eexists. split; [reflexivity |]. split; [lia |].
  destruct (first_step_without_cells 2 1 3) as (Hvcd & Hdead0 & Hdead & Htcd);
    [lia |].
  set (data1 := ieee.loop_body (configured 2 1) 37 (72 / 10) 50
                               (ieee.initial_data 3 2000 0) 1) in *.
  destruct (ieee_loop_body_other (configured 2 1) 37 (72 / 10) 50 data1 2 1)
    as (_ & Hv1 & Ht1 & Hd1 & _); [lia |].
  destruct (ieee_loop_body_other (configured 2 1) 37 (72 / 10) 50 data1 2 0)
    as (_ & _ & _ & Hd0 & _); [lia |].
  cbv zeta in *. rewrite Hv1, Ht1, Hd1, Hd0. auto.
Qed.

(** C2, as stated, fails where the death rate is infinite: in row 1 of
    the run without cells at glucose 2000 the total cell density is
    [nan], and [TCD[1] == VCD[1] + deadCells[1]] is false. *)
Lemma tcd_is_nan_without_cells :
  ~ (forall data,
       ieee.simulate_data (configured 2 1) 2000 0 37 (72 / 10) 50 = Some data ->
       forall i, (i < length (time_points (configured 2 1)))%nat ->
         ieee.eqb (ieee.idx (ieee.tcd data) i)
                  (ieee.add (ieee.idx (ieee.vcd data) i)
                            (ieee.idx (ieee.dead_cells data) i)) = true).
Proof.
  intros Hclaim.
  destruct run_without_cells_at_glucose_2000
    as (data & Hsim & Hn & Hvcd & _ & Hdead & Htcd).
  specialize (Hclaim data Hsim 1%nat Hn).
  rewrite Htcd in Hclaim. discriminate.
Qed.

(** C3, as stated, fails on the same run: the dead cells go from 0 to
    [nan], and [deadCells[0] <= deadCells[1]] is false. *)
Lemma dead_cells_are_nan_without_cells :
  ~ (forall data,
       ieee.simulate_data (configured 2 1) 2000 0 37 (72 / 10) 50 = Some data ->
       forall i j, (i <= j < length (time_points (configured 2 1)))%nat ->
         ieee.leb (ieee.idx (ieee.dead_cells data) i)
                  (ieee.idx (ieee.dead_cells data) j) = true
         /\ ieee.leb (ieee.idx (ieee.antibody_titer data) i)
                     (ieee.idx (ieee.antibody_titer data) j) = true).
Proof.
  intros Hclaim.
  destruct run_without_cells_at_glucose_2000
    as (data & Hsim & Hn & _ & Hdead0 & Hdead & _).
  destruct (Hclaim data Hsim 0%nat 1%nat) as [Hle _]; [lia |].
  rewrite Hdead0, Hdead in Hle. discriminate.
Qed.

(** ** Where the death rate is finite, the loop is the exact one *)

Lemma ieee_idx_fin (a : list R) i :
  ieee.idx (ieee.Fin <$> a) i = ieee.Fin (idx a i).
Proof.
  unfold ieee.idx, idx. rewrite list_lookup_fmap.
  destruct (a !! i); reflexivity.
Qed.

Lemma ieee_max0_fin x : ieee.max0 (ieee.Fin x) = ieee.Fin (py_max 0 x).
Proof.
  unfold ieee.max0, py_max. simpl. destruct (Rlt_dec 0 x); reflexivity.
Qed.

Lemma stress_exponent_terms self T p o g :
  let e k d := 1 / 2 * (d / sigma self k) ^ 2 in
  finite_death_rate self T p o g ->
  e Key.temp (T - optimal self Key.temp) <= 700
  /\ e Key.ph (p - optimal self Key.ph) <= 700
  /\ e Key.oxygen (o - optimal self Key.oxygen) <= 700
  /\ e Key.glucose (g - optimal self Key.glucose) <= 700.
Proof.
  cbv zeta. unfold finite_death_rate, stress_exponent. intros H.
  pose proof (pow2_ge_0 ((T - optimal self Key.temp) / sigma self Key.temp)).
  pose proof (pow2_ge_0 ((p - optimal self Key.ph) / sigma self Key.ph)).
  pose proof (pow2_ge_0 ((o - optimal self Key.oxygen) / sigma self Key.oxygen)).
  pose proof (pow2_ge_0 ((g - optimal self Key.glucose) / sigma self Key.glucose)).
  lra.
Qed.

(** Where the death rate is finite, the responses, their product and
    the death rate are the real ones. *)
Lemma ieee_evaluate_environment_fin self T p o g :
  (forall k, 0 < sigma self k) ->
  finite_death_rate self T p o g ->
  ieee.evaluate_environment self T p o (ieee.Fin g)
  = (ieee.Fin (fst (evaluate_environment self T p o g)),
     ieee.Fin (snd (evaluate_environment self T p o g))).
Proof.
  intros Hs Hfin.
  destruct (stress_exponent_terms self T p o g Hfin) as (H1 & H2 & H3 & H4).
  assert (Hne : forall k, sigma self k <> 0)
    by (intros k; apply Rgt_not_eq, Hs).
  unfold ieee.evaluate_environment, evaluate_environment, ieee.prod, np.prod.
  cbn [fmap list_fmap foldl fst snd ieee.sub ieee.opp ieee.add].
  replace (g + - optimal self Key.glucose) with (g - optimal self Key.glucose)
    by ring.
  rewrite !ieee_stress_gaussian_fin by (first [apply Hne | lra]).
  rewrite !ieee_div_fin by (apply Rgt_not_eq, stress_gaussian_pos).
  reflexivity.
Qed.

Lemma ieee_monod_kinetics_fin s k_s k_i :
  0 < k_s -> 0 < k_i ->
  ieee.monod_kinetics (ieee.Fin s) k_s (Some k_i)
  = ieee.Fin (monod_kinetics s k_s (Some k_i)).
Proof.
  intros Hks Hki. unfold ieee.monod_kinetics, monod_kinetics.
  cbn [ieee.leb].
  destruct (Rle_dec s 0) as [Hs | Hs]; [reflexivity |].
  assert (H2 : 0 <= s * s / k_i).
  { apply Rmult_le_pos; [nra | left; apply Rinv_0_lt_compat, Hki]. }
  cbn [ieee.mul].
  rewrite ieee_div_fin by lra. cbn [ieee.add].
  rewrite ieee_div_fin by lra.
  do 2 f_equal. f_equal. field. lra.
Qed.

Lemma ieee_insert_fin (a : list R) i x :
  <[i:=ieee.Fin x]> (ieee.Fin <$> a) = ieee.Fin <$> <[i:=x]> a.
Proof. symmetry. apply list_fmap_insert. Qed.

Lemma ieee_add_fin a b : ieee.add (ieee.Fin a) (ieee.Fin b) = ieee.Fin (a + b).
Proof. reflexivity. Qed.

Lemma ieee_sub_fin a b : ieee.sub (ieee.Fin a) (ieee.Fin b) = ieee.Fin (a - b).
Proof. reflexivity. Qed.

Lemma ieee_mul_fin a b : ieee.mul (ieee.Fin a) (ieee.Fin b) = ieee.Fin (a * b).
Proof. reflexivity. Qed.

Lemma ieee_if_fin v a b :
  (if ieee.ltb (ieee.Fin 0) (ieee.Fin v) then ieee.Fin a else ieee.Fin b)
  = ieee.Fin (if Rlt_dec 0 v then a else b).
Proof. simpl. destruct (Rlt_dec 0 v); reflexivity. Qed.

Lemma ieee_if_data v a b :
  (if ieee.ltb (ieee.Fin 0) (ieee.Fin v) then ieee_data a else ieee_data b)
  = ieee_data (if Rlt_dec 0 v then a else b).
Proof. simpl. destruct (Rlt_dec 0 v); reflexivity. Qed.

Lemma ieee_viability_fin v t :
  (if ieee.ltb (ieee.Fin 0) (ieee.Fin t)
   then ieee.mul (ieee.div (ieee.Fin v) (ieee.Fin t)) (ieee.Fin 100)
   else ieee.Fin 0)
  = ieee.Fin (if Rlt_dec 0 t then v / t * 100 else 0).
Proof.
  cbn [ieee.ltb]. destruct (Rlt_dec 0 t) as [Ht | Ht]; [| reflexivity].
  rewrite ieee_div_fin by lra. reflexivity.
Qed.

Lemma ieee_set_glucose_fin i x d :
  ieee.set_glucose i (ieee.Fin x) (ieee_data d) = ieee_data (set_glucose i x d).
Proof. unfold ieee.set_glucose, ieee_data. simpl. by rewrite ieee_insert_fin. Qed.

Lemma ieee_set_vcd_fin i x d :
  ieee.set_vcd i (ieee.Fin x) (ieee_data d) = ieee_data (set_vcd i x d).
Proof. unfold ieee.set_vcd, ieee_data. simpl. by rewrite ieee_insert_fin. Qed.

Lemma ieee_set_tcd_fin i x d :
  ieee.set_tcd i (ieee.Fin x) (ieee_data d) = ieee_data (set_tcd i x d).
Proof. unfold ieee.set_tcd, ieee_data. simpl. by rewrite ieee_insert_fin. Qed.

Lemma ieee_set_dead_cells_fin i x d :
  ieee.set_dead_cells i (ieee.Fin x) (ieee_data d)
  = ieee_data (set_dead_cells i x d).
Proof. unfold ieee.set_dead_cells, ieee_data. simpl. by rewrite ieee_insert_fin. Qed.

Lemma ieee_set_viability_fin i x d :
  ieee.set_viability i (ieee.Fin x) (ieee_data d)
  = ieee_data (set_viability i x d).
Proof. unfold ieee.set_viability, ieee_data. simpl. by rewrite ieee_insert_fin. Qed.

Lemma ieee_set_antibody_titer_fin i x d :
  ieee.set_antibody_titer i (ieee.Fin x) (ieee_data d)
  = ieee_data (set_antibody_titer i x d).
Proof.
  unfold ieee.set_antibody_titer, ieee_data. simpl. by rewrite ieee_insert_fin.
Qed.

Lemma ieee_data_idx d i :
  ieee.idx (ieee.glucose (ieee_data d)) i = ieee.Fin (idx (glucose d) i)
  /\ ieee.idx (ieee.vcd (ieee_data d)) i = ieee.Fin (idx (vcd d) i)
  /\ ieee.idx (ieee.tcd (ieee_data d)) i = ieee.Fin (idx (tcd d) i)
  /\ ieee.idx (ieee.dead_cells (ieee_data d)) i
     = ieee.Fin (idx (dead_cells d) i)
  /\ ieee.idx (ieee.viability (ieee_data d)) i
     = ieee.Fin (idx (viability d) i)
  /\ ieee.idx (ieee.antibody_titer (ieee_data d)) i
     = ieee.Fin (idx (antibody_titer d) i).
Proof. unfold ieee_data. simpl. rewrite !ieee_idx_fin. tauto. Qed.

Ltac ieee_fin :=
  repeat first
    [ rewrite ieee_add_fin | rewrite ieee_sub_fin | rewrite ieee_mul_fin
    | rewrite ieee_max0_fin | rewrite ieee_if_fin | rewrite ieee_viability_fin
    | rewrite ieee_set_glucose_fin | rewrite ieee_set_vcd_fin
    | rewrite ieee_set_tcd_fin | rewrite ieee_set_dead_cells_fin
    | rewrite ieee_set_viability_fin | rewrite ieee_set_antibody_titer_fin
    | rewrite (proj1 (ieee_data_idx _ _))
    | rewrite (proj1 (proj2 (ieee_data_idx _ _)))
    | rewrite (proj1 (proj2 (proj2 (ieee_data_idx _ _))))
    | rewrite (proj1 (proj2 (proj2 (proj2 (ieee_data_idx _ _)))))
    | rewrite (proj1 (proj2 (proj2 (proj2 (proj2 (ieee_data_idx _ _))))))
    | rewrite (proj2 (proj2 (proj2 (proj2 (proj2 (ieee_data_idx _ _))))))
    | rewrite ieee_if_data ].

(** One pass through the loop on finite values, where the death rate is
    finite: the special values stay out, and the cells written are those
    of [loop_body]. *)
Lemma ieee_loop_body_fin self T p o data i :
  valid_config self ->
  finite_death_rate self T p o (idx (glucose data) (i - 1)) ->
  ieee.loop_body self T p o (ieee_data data) i
  = ieee_data (loop_body self T p o data i).
Proof.
  intros Hvalid Hfin. unfold ieee.loop_body, loop_body.
  rewrite (proj1 (ieee_data_idx _ _)).
  rewrite (proj1 (proj2 (ieee_data_idx _ _))).
  rewrite (ieee_evaluate_environment_fin _ _ _ _ _ (vc_sigma _ Hvalid) Hfin).
  rewrite ieee_monod_kinetics_fin
    by (first [apply (vc_affinity _ Hvalid) | apply (vc_inhibition _ Hvalid)]).
  destruct (evaluate_environment self T p o (idx (glucose data) (i - 1)))
    as [activity_effect death_rate_now].
  cbn [fst snd].
  pose proof (vc_yield _ Hvalid) as Hy.
  ieee_fin.
  rewrite ieee_div_fin by lra.
  ieee_fin.
  reflexivity.
Qed.

Lemma ieee_initial_data_fin n ig iv :
  ieee.initial_data n ig iv = ieee_data (initial_data n ig iv).
Proof.
  unfold ieee.initial_data, initial_data.
  assert (Hz : {| ieee.glucose := ieee.zeros n; ieee.vcd := ieee.zeros n;
                  ieee.tcd := ieee.zeros n; ieee.dead_cells := ieee.zeros n;
                  ieee.viability := ieee.zeros n;
                  ieee.antibody_titer := ieee.zeros n |}
               = ieee_data {| glucose := np.zeros n; vcd := np.zeros n;
                              tcd := np.zeros n; dead_cells := np.zeros n;
                              viability := np.zeros n;
                              antibody_titer := np.zeros n |}).
  { unfold ieee_data, ieee.zeros, np.zeros. simpl.
    rewrite fmap_replicate. reflexivity. }
  cbv zeta. rewrite Hz.
  rewrite ieee_set_glucose_fin, ieee_set_vcd_fin, ieee_set_tcd_fin,
    ieee_set_viability_fin.
  reflexivity.
Qed.

Section FiniteRun.

Variable self : CHOFermentationSimulator.
Variables initial_glucose initial_vcd : R.
Variables temperature ph_constant oxygen_saturation : R.

Hypothesis Hvalid : valid_config self.
Hypothesis Hmaintenance : 0 <= maintenance_coefficient self.
Hypothesis Hglucose : 0 <= initial_glucose.
Hypothesis Hvcd : 0 <= initial_vcd.
Hypothesis Hfinite :
  finite_death_rates self initial_glucose temperature ph_constant
                     oxygen_saturation.

(** Every glucose level of the recurrence lies between 0 and the initial
    one, where the death rate is finite. *)
Lemma state_finite_death_rate i :
  finite_death_rate self temperature ph_constant oxygen_saturation
    (st_glucose (euler_state self initial_glucose initial_vcd temperature
                             ph_constant oxygen_saturation i)).
Proof using Hvalid Hmaintenance Hglucose Hvcd Hfinite.
  apply Hfinite. split.
  - apply state_glucose_nonneg, Hglucose.
  - apply (state_glucose_mono self initial_glucose initial_vcd temperature
             ph_constant oxygen_saturation Hvalid Hvcd Hmaintenance 0 i);
      [exact Hglucose | lia].
Qed.

Lemma ieee_loop_prefix n k :
  (k < n)%nat ->
  foldl (ieee.loop_body self temperature ph_constant oxygen_saturation)
        (ieee.initial_data n initial_glucose initial_vcd) (seq 1 k)
  = ieee_data
      (foldl (loop_body self temperature ph_constant oxygen_saturation)
             (initial_data n initial_glucose initial_vcd) (seq 1 k)).
Proof using Hvalid Hmaintenance Hglucose Hvcd Hfinite.
  induction k as [| k IH]; intros Hk.
  - simpl. apply ieee_initial_data_fin.
  - rewrite seq_S, !foldl_app. simpl. rewrite IH by lia.
    apply ieee_loop_body_fin; [exact Hvalid |].
    replace (S k - 1)%nat with k by lia.
    destruct (loop_prefix self temperature ph_constant oxygen_saturation n
                initial_glucose initial_vcd k) as [_ Hrows]; [lia |].
    destruct (row_fields _ _ _ (Hrows k (le_n k))) as (Hg & _).
    rewrite Hg. apply state_finite_death_rate.
Qed.

(** On such a run the loop never meets a special value: its arrays are
    those of [simulate_data]. *)
Lemma ieee_simulate_data_fin data :
  simulate_data self initial_glucose initial_vcd temperature ph_constant
                oxygen_saturation = Some data ->
  ieee.simulate_data self initial_glucose initial_vcd temperature ph_constant
                     oxygen_saturation = Some (ieee_data data).
Proof using Hvalid Hmaintenance Hglucose Hvcd Hfinite.
  unfold simulate_data, ieee.simulate_data.
  destruct (length (time_points self)) as [| m] eqn:Hn; [discriminate |].
  intros Hsim. injection Hsim as <-.
  rewrite ieee_loop_prefix by lia. reflexivity.
Qed.

End FiniteRun.

(** ** The invariants of the cell densities, with special values *)

(** C2, amended.  For a valid configuration with a maintenance
    coefficient that is not negative, and a run within the interface
    (initial glucose and viable cell density not negative) whose readings
    keep the death rate finite at every glucose level up to the initial
    one: the run returns, and at every step of the unrounded trajectory
    [TCD[i] == VCD[i] + deadCells[i]] holds, the comparison of the code
    being true. *)
Theorem tcd_identity (self : CHOFermentationSimulator)
    (initial_glucose initial_vcd temperature ph_constant oxygen_saturation : R) :
  valid_config self -> 0 <= maintenance_coefficient self ->
  0 <= initial_glucose -> 0 <= initial_vcd ->
  finite_death_rates self initial_glucose temperature ph_constant
                     oxygen_saturation ->
  exists data,
    ieee.simulate_data self initial_glucose initial_vcd temperature ph_constant
                       oxygen_saturation = Some data
    /\ forall i, (i < length (time_points self))%nat ->
         ieee.eqb (ieee.idx (ieee.tcd data) i)
                  (ieee.add (ieee.idx (ieee.vcd data) i)
                            (ieee.idx (ieee.dead_cells data) i)) = true.
Proof.
  intros Hvalid Hm Hig Hiv Hfin.
  destruct (valid_simulate_data self initial_glucose initial_vcd temperature
              ph_constant oxygen_saturation Hvalid) as [data Hsim].
  exists (ieee_data data). split.
  - apply ieee_simulate_data_fin; assumption.
  - intros i Hi. read_row Hsim i.
    destruct (ieee_data_idx data i) as (_ & Hv & Ht & Hd & _).
    rewrite Hv, Ht, Hd, Htcd, Hvcd, Hdead. cbn [ieee.add ieee.eqb].
    rewrite state_tcd.
    destruct (Req_dec_T _ _) as [_ | Hne]; [reflexivity | contradiction].
Qed.

Lemma tcd_identity_witness :
  exists data,
    ieee.simulate_data (configured 2 1) 25 (1 / 2) 37 (72 / 10) 50 = Some data
    /\ forall i, (i < length (time_points (configured 2 1)))%nat ->
         ieee.eqb (ieee.idx (ieee.tcd data) i)
                  (ieee.add (ieee.idx (ieee.vcd data) i)
                            (ieee.idx (ieee.dead_cells data) i)) = true.
Proof.
  apply (tcd_identity (configured 2 1) 25 (1 / 2) 37 (72 / 10) 50).
  - apply configured_2_1_valid.
  - simpl; lra.
  - lra.
  - lra.
  - apply configured_2_1_finite.
Defined.

(** C3, amended.  For a valid configuration with a maintenance
    coefficient that is not negative, and a run within the interface
    (initial glucose and viable cell density not negative) whose readings
    keep the death rate finite at every glucose level up to the initial
    one: the run returns, and the dead cells and the antibody titer never
    decrease from one row to a later one, [deadCells[i] <= deadCells[j]]
    and [antibodyTiter[i] <= antibodyTiter[j]] being true whenever
    [i <= j]. *)
Theorem dead_cells_titer_monotone (self : CHOFermentationSimulator)
    (initial_glucose initial_vcd temperature ph_constant oxygen_saturation : R) :
  valid_config self -> 0 <= maintenance_coefficient self ->
  0 <= initial_glucose -> 0 <= initial_vcd ->
  finite_death_rates self initial_glucose temperature ph_constant
                     oxygen_saturation ->
  exists data,
    ieee.simulate_data self initial_glucose initial_vcd temperature ph_constant
                       oxygen_saturation = Some data
    /\ forall i j, (i <= j < length (time_points self))%nat ->
         ieee.leb (ieee.idx (ieee.dead_cells data) i)
                  (ieee.idx (ieee.dead_cells data) j) = true
         /\ ieee.leb (ieee.idx (ieee.antibody_titer data) i)
                     (ieee.idx (ieee.antibody_titer data) j) = true.
Proof.
  intros Hvalid Hm Hig Hiv Hfin.
  destruct (valid_simulate_data self initial_glucose initial_vcd temperature
              ph_constant oxygen_saturation Hvalid) as [data Hsim].
  exists (ieee_data data). split.
  - apply ieee_simulate_data_fin; assumption.
  - intros i j [Hij Hj]. read_row Hsim i. read_row Hsim j.
    destruct (ieee_data_idx data i) as (_ & _ & _ & Hdi & _ & Hai).
    destruct (ieee_data_idx data j) as (_ & _ & _ & Hdj & _ & Haj).
    rewrite Hdi, Hdj, Hai, Haj, Hdead, Hdead0, Htiter, Htiter0.
    cbn [ieee.leb].
    pose proof (state_dead_cells_mono self initial_glucose initial_vcd
                  temperature ph_constant oxygen_saturation Hvalid Hiv i j Hij).
    pose proof (state_antibody_titer_mono self initial_glucose initial_vcd
                  temperature ph_constant oxygen_saturation Hvalid i j Hij).
    split; destruct (Rle_dec _ _); (reflexivity || contradiction).
Qed.

Lemma dead_cells_titer_monotone_witness :
  exists data,
    ieee.simulate_data (configured 2 1) 25 (1 / 2) 37 (72 / 10) 50 = Some data
    /\ forall i j, (i <= j < length (time_points (configured 2 1)))%nat ->
         ieee.leb (ieee.idx (ieee.dead_cells data) i)
                  (ieee.idx (ieee.dead_cells data) j) = true
         /\ ieee.leb (ieee.idx (ieee.antibody_titer data) i)
                     (ieee.idx (ieee.antibody_titer data) j) = true.
Proof.
  apply (dead_cells_titer_monotone (configured 2 1) 25 (1 / 2) 37 (72 / 10) 50).
  - apply configured_2_1_valid.
  - simpl; lra.
  - lra.
  - lra.
  - apply configured_2_1_finite.
Defined.
